(** * OAuth flow and GraphQL client of the Shopify API library

    A shallow embedding of [begin], [callback], [validQuery],
    [createSession] and [throwIfPrivateApp] (the OAuth module) and of
    [GraphqlClient] (constructor, [query], [getAccessTokenHeader]).

    Conventions of the embedding:
    - JavaScript values are the inductive [JsValue]; numbers are modelled
      on the integers, with [NaN] added where a coercion can produce it.
      Fractions and IEEE rounding are outside the model; the range of a
      [Date] is not: [new Date] clips its time value.
    - An [async] function is its sequential body; [await] is sequencing.
    - Effects (logging, randomness, the clock, outbound HTTP) live in an
      explicit [World]; a [throw] keeps the world reached so far. *)

From Stdlib Require Import String Ascii List ZArith Bool.
From Stdlib Require Import DecimalString.
Import ListNotations.

Local Open Scope string_scope.
Local Open Scope Z_scope.

(** ** JavaScript values *)

Local Set Warnings "-register-all".

Inductive JsValue : Type :=
| JsUndefined
| JsNull
| JsBool (b : bool)
| JsNumber (n : Z)
| JsString (s : string)
| JsArray (items : list JsValue)
| JsObject (fields : list (string * JsValue)).

(** A plain object: its own enumerable properties in insertion order. *)
Definition JsDict := list (string * JsValue).

(** The result of a numeric coercion. *)
Inductive number : Type :=
| Num (z : Z)
| NaN.

Definition number_add (a b : number) : number :=
  match a, b with
  | Num x, Num y => Num (x + y)
  | _, _ => NaN
  end.

Definition number_mul (a b : number) : number :=
  match a, b with
  | Num x, Num y => Num (x * y)
  | _, _ => NaN
  end.

(** A [Date] object is its time value, in milliseconds since the epoch;
    the date whose time value is [NaN] is the Invalid Date. *)
Inductive JsDate : Type :=
| Date_of (t : number).

(** The largest time value a [Date] holds, on either side of the epoch. *)
Definition max_time : Z := 8640000000000000.

(** [TimeClip(t)]: a time value out of range becomes [NaN]. *)
Definition TimeClip (t : number) : number :=
  match t with
  | Num z => if Z.abs z <=? max_time then Num z else NaN
  | NaN => NaN
  end.

(** [new Date(t)] for a number [t]. *)
Definition new_Date (t : number) : JsDate := Date_of (TimeClip t).

(** Property lookup on an association list: the first binding wins. *)
Fixpoint assoc {A : Type} (k : string) (l : list (string * A)) : option A :=
  match l with
  | [] => None
  | (k', v) :: rest => if String.eqb k k' then Some v else assoc k rest
  end.

(** [o[k] = v] on a plain object: update in place or append. *)
Fixpoint assign {A : Type} (k : string) (v : A) (l : list (string * A))
  : list (string * A) :=
  match l with
  | [] => [(k, v)]
  | (k', v') :: rest =>
      if String.eqb k k' then (k, v) :: rest else (k', v') :: assign k v rest
  end.

(** [{...a, ...b}]: the properties of [b] written over those of [a]. *)
Definition spread {A : Type} (a b : list (string * A)) : list (string * A) :=
  fold_left (fun acc kv => assign (fst kv) (snd kv) acc) b a.

(** [Object.fromEntries(entries)]. *)
Definition Object_fromEntries {A : Type} (entries : list (string * A))
  : list (string * A) :=
  spread [] entries.

(** [o.k] on a plain object; a missing property reads as [undefined]. *)
Definition prop (o : JsDict) (k : string) : JsValue :=
  match assoc k o with
  | Some v => v
  | None => JsUndefined
  end.

Definition has_key (o : JsDict) (k : string) : bool :=
  match assoc k o with
  | Some _ => true
  | None => false
  end.

(** [const {k1, .., kn, ...rest} = o]: what is left in [rest]. *)
Definition rest_without (ks : list string) (o : JsDict) : JsDict :=
  filter (fun kv => negb (existsb (String.eqb (fst kv)) ks)) o.

(** [v.k] for a value [v] that is neither [null] nor [undefined]
    (reading a property of those throws a TypeError).  Primitives and
    arrays own no property of the names read here. *)
Definition member (v : JsValue) (k : string) : JsValue :=
  match v with
  | JsObject fields => prop fields k
  | _ => JsUndefined
  end.

(** [Boolean(v)], also the test of [if (v)] and [!v]. *)
Definition Boolean (v : JsValue) : bool :=
  match v with
  | JsUndefined | JsNull => false
  | JsBool b => b
  | JsNumber n => negb (n =? 0)
  | JsString s => negb (String.eqb s "")
  | JsArray _ | JsObject _ => true
  end.

Definition truthy_string (o : option string) : bool :=
  match o with
  | Some s => negb (String.eqb s "")
  | None => false
  end.

Fixpoint join (sep : string) (l : list string) : string :=
  match l with
  | [] => ""
  | [x] => x
  | x :: rest => x ++ sep ++ join sep rest
  end.

(** ** Configuration *)

(** The part of [ConfigInterface] the two modules read.  [scopes] stands
    for [config.scopes.toString()], the only use made of the scopes. *)
Record Config : Type := mkConfig {
  apiKey : string;
  apiSecretKey : string;
  scopes : string;
  hostName : string;
  hostScheme : string;
  apiVersion : string;
  isEmbeddedApp : bool;
  isPrivateApp : bool;
}.

(** ** The host environment

    Primitives of the JavaScript runtime and of library modules whose
    code is not among the verified files.  They are taken as they come:
    nothing is assumed about them beyond their types. *)
Class Runtime : Type := {
  (** [createSHA256HMAC(key, value)], the cookie jar's MAC *)
  createSHA256HMAC : string -> string -> string;
  (** the platform's shop-domain syntax, as the configuration extends it *)
  validShop : Config -> string -> bool;
  (** [validateHmac(config)(query)] *)
  validateHmac : Config -> list (string * string) -> bool;
  (** [new URL(url, base).searchParams], as its list of entries *)
  searchParams : string -> string -> list (string * string);
  (** serialisation of one component by [URLSearchParams.toString] *)
  urlencode : string -> string;
  (** [Number(s)] on a string *)
  StringToNumber : string -> number;
  (** [String(n)] on a number *)
  NumberToString : Z -> string;
  (** constants of the library's type modules *)
  STATE_COOKIE_NAME : string;
  SESSION_COOKIE_NAME : string;
  ShopifyHeader_AccessToken : string;
}.

Section Coercions.
Context {RT : Runtime}.

(** [String(v)], the conversion a template literal applies. *)
Fixpoint ToString (v : JsValue) : string :=
  match v with
  | JsUndefined => "undefined"
  | JsNull => "null"
  | JsBool true => "true"
  | JsBool false => "false"
  | JsNumber n => NumberToString n
  | JsString s => s
  | JsArray items =>
      join ","
        (map (fun x => match x with
                       | JsUndefined | JsNull => ""
                       | _ => ToString x
                       end) items)
  | JsObject _ => "[object Object]"
  end.

(** [Number(v)], the conversion [*] applies to its operands. *)
Definition ToNumber (v : JsValue) : number :=
  match v with
  | JsUndefined => NaN
  | JsNull => Num 0
  | JsBool true => Num 1
  | JsBool false => Num 0
  | JsNumber n => Num n
  | JsString s => StringToNumber s
  | JsArray _ | JsObject _ => StringToNumber (ToString v)
  end.

End Coercions.

(** ** Errors

    The classes of [ShopifyErrors] that the two modules throw, the error
    of the shop validator, whatever the HTTP client throws, and a plain
    [Error]. *)
Inductive ShopifyError : Type :=
| PrivateAppError (message : string)
| CookieNotFound (message : string)
| InvalidOAuthError (message : string)
| InvalidShopError (message : string)
| MissingRequiredArgument (message : string)
| GraphqlQueryError (message : string) (response : JsDict)
| HttpRequestError (message : string)
| JsError (message : string).

(** ** The HTTP collaborator

    The generic HTTP client is not among the files; it is the external
    collaborator of sections 1 and 6 of the specification.  A client
    is its domain; a POST is recorded in the world and answered by the
    remote end. *)

Inductive DataType : Type :=
| DataType_JSON
| DataType_GraphQL
| DataType_URLEncoded.

(** [data] of a request: [string | {[key: string]: unknown}]. *)
Inductive PostData : Type :=
| DataString (s : string)
| DataObject (o : JsDict).

Module HttpRequest.
(** One outbound POST: the client's domain and the [PostRequestParams]. *)
Record t : Type := mk {
  domain : string;
  path : string;
  type : DataType;
  data : PostData;
  query : option JsDict;
  extraHeaders : option JsDict;
  tries : option Z;
}.
End HttpRequest.

Module RequestReturn.
(** What the client returns.  The body is the parsed JSON object that
    the callers cast it to ([OnlineAccessResponse], [AccessTokenResponse],
    [{[key: string]: unknown}]): its members may hold any value, but a
    body that is not an object is outside the model. *)
Record t : Type := mk {
  body : JsDict;
  headers : list (string * string);
}.
End RequestReturn.

Module HttpClient.
Record t : Type := new {
  domain : string;
}.
End HttpClient.

(** ** The logger

    The logger is not among the files; what it is asked to write is
    kept as a trace of entries, one constructor per method called. *)

Inductive LogEntry : Type :=
| LogError (message : string) (context : JsDict)
| LogInfo (message : string) (context : JsDict)
| LogDebug (message : string) (context : JsDict)
| LogDeprecated (version : string) (message : string).

(** ** The world an invocation runs in *)

Record World : Type := mkWorld {
  (** [Date.now()], in milliseconds *)
  now : Z;
  (** the random source: its successive draws *)
  rng : nat -> string;
  (** how many draws were consumed *)
  drawn : nat;
  (** the remote end: it answers, or the client fails with a message;
      the outcome may depend on the requests seen before *)
  server : list HttpRequest.t -> HttpRequest.t -> string + RequestReturn.t;
  (** requests issued so far, oldest first *)
  sent : list HttpRequest.t;
  (** log entries written so far, oldest first *)
  logs : list LogEntry;
}.

Definition M (A : Type) : Type := World -> (ShopifyError + A) * World.

Definition ret {A : Type} (a : A) : M A := fun w => (inr a, w).

Definition throw {A : Type} (e : ShopifyError) : M A := fun w => (inl e, w).

Definition bind {A B : Type} (m : M A) (f : A -> M B) : M B :=
  fun w =>
    match m w with
    | (inr a, w') => f a w'
    | (inl e, w') => (inl e, w')
    end.

Declare Scope js_scope.
Delimit Scope js_scope with js.
Notation "x <- m ;; k" := (bind m (fun x => k))
  (at level 61, m at next level, right associativity) : js_scope.
Notation "m ;;; k" := (bind m (fun _ => k))
  (at level 61, right associativity) : js_scope.
Local Open Scope js_scope.

(** Modelled from the spec: the logger is not among the files; section
    9 has the deprecated parameter logged as deprecated.  A call of a
    logging method appends its entry to the trace. *)
Definition log (e : LogEntry) : M unit :=
  fun w =>
    (inr tt,
     mkWorld (now w) (rng w) (drawn w) (server w) (sent w) (logs w ++ [e])).

(** [Date.now()] *)
Definition Date_now : M Z := fun w => (inr (now w), w).

(** One draw from the random source. *)
Definition random : M string :=
  fun w =>
    (inr (rng w (drawn w)),
     mkWorld (now w) (rng w) (S (drawn w)) (server w) (sent w) (logs w)).

(** [uuidv4()] *)
Definition uuidv4 : M string := random.

(** Modelled from the spec: [./nonce] is not among the files; section
    4.1 makes it a generator of unpredictable state tokens. *)
Definition nonce : M string := random.

(** Modelled from the spec: the HTTP client is not among the files;
    sections 1 and 6 make [client.post(params)] a POST to the platform
    that yields a response body or fails.  The request is recorded and
    the remote end answers, or the client throws. *)
Definition post (client : HttpClient.t)
    (path : string) (type : DataType) (data : PostData)
    (query : option JsDict) (extraHeaders : option JsDict)
    (tries : option Z) : M RequestReturn.t :=
  fun w =>
    let request :=
      HttpRequest.mk (HttpClient.domain client) path type data
                     query extraHeaders tries in
    (match server w (sent w) request with
     | inr response => inr response
     | inl message => inl (HttpRequestError message)
     end,
     mkWorld (now w) (rng w) (drawn w) (server w)
             (sent w ++ [request]) (logs w)).

(** ** The signed cookie jar *)

Module CookieData.
(** One cookie of the outgoing [Set-Cookie] bag. *)
Record t : Type := mk {
  name : string;
  value : string;
  signature : option string;
  expires : option JsDate;
  sameSite : option string;
  secure : option bool;
  path : option string;
}.
End CookieData.

Module NormalizedRequest.
(** An inbound request: its URL and its [Cookie] header, read as the
    cookies it carries, each a value with the MAC sent along with it. *)
Record t : Type := mk {
  url : string;
  cookie : list (string * (string * string));
}.
End NormalizedRequest.

Module Cookies.
Record t : Type := mk {
  keys : list string;
  secure : bool;
  received : list (string * (string * string));
  outgoing : list CookieData.t;
}.

Section Jar.
Context {RT : Runtime}.

(** Modelled from the spec: the [Cookies] class of the runtime layer is
    not among the files; section 4.2 describes it as a jar over a
    configured list of secrets that reads the inbound cookies and
    mutates an outgoing-response header bag. *)
Definition new (request : NormalizedRequest.t) (keys : list string)
    (secure : bool) : t :=
  mk keys secure (NormalizedRequest.cookie request) [].

(** Modelled from the spec: [setSigned] of section 4.2; signing uses
    the first key.  Without any key there is nothing to sign with. *)
Definition setAndSign (jar : t) (name value : string)
    (expires : option JsDate) (sameSite : option string)
    (secure : option bool) (path : option string) : M t :=
  let cookie key :=
    CookieData.mk name value (Some (createSHA256HMAC key value))
                  expires sameSite secure path in
  match jar with
  | mk [] _ _ _ => throw (JsError "No keys provided for signing.")
  | mk (key :: others) jar_secure received outgoing =>
      ret (mk (key :: others) jar_secure received
              (outgoing ++ [cookie key]))
  end.

(** Modelled from the spec: [getVerified] of section 4.2; the value is
    returned only if its MAC matches under one of the configured keys,
    and a missing cookie and a mismatched one both read as absent. *)
Definition getAndVerify (jar : t) (name : string) : option string :=
  match assoc name (received jar) with
  | Some (value, mac) =>
      if existsb (fun key => String.eqb (createSHA256HMAC key value) mac)
                 (keys jar)
      then Some value
      else None
  | None => None
  end.

(** Modelled from the spec: [delete] of section 4.2 marks the cookie
    for expiry in the outgoing response. *)
Definition deleteCookie (jar : t) (name : string) : t :=
  mk (keys jar) (secure jar) (received jar)
     (outgoing jar ++
      [CookieData.mk name "" None (Some (Date_of (Num 0))) None None None]).

End Jar.
End Cookies.

(** ** Sessions *)

Module Session.
(** Modelled from the spec: the [Session] class is not among the files;
    section 3 lists its fields, and its constructor keeps what it is
    given.  A field that was not given is [None]. *)
Record t : Type := new {
  id : string;
  shop : string;
  state : string;
  isOnline : bool;
  accessToken : JsValue;
  scope : JsValue;
  expires : option JsDate;
  onlineAccessInfo : option JsDict;
}.
End Session.

(** ** The OAuth flow *)

Module BeginParams.
Record t : Type := mk {
  shop : string;
  callbackPath : string;
  isOnline : bool;
  adapterArgs : NormalizedRequest.t;
}.
End BeginParams.

Module CallbackParams.
Record t : Type := mk {
  isOnline : option bool;
  adapterArgs : NormalizedRequest.t;
}.
End CallbackParams.

Module Headers.
(** The response headers the flow writes. *)
Record t : Type := mk {
  SetCookie : list CookieData.t;
  Location : option string;
}.
End Headers.

Module NormalizedResponse.
Record t : Type := mk {
  statusCode : Z;
  statusText : string;
  headers : Headers.t;
}.
End NormalizedResponse.

Module CallbackResponse.
Record t : Type := mk {
  headers : Headers.t;
  session : Session.t;
}.
End CallbackResponse.

(** The adapters between the host framework's request and response and
    the normalized ones are plumbing: the normalized shapes are used
    directly. *)
Definition abstractConvertRequest (adapterArgs : NormalizedRequest.t)
  : NormalizedRequest.t := adapterArgs.

Definition abstractConvertResponse (response : NormalizedResponse.t)
  : NormalizedResponse.t := response.

Definition abstractConvertHeaders (cookies : list CookieData.t)
  : Headers.t := Headers.mk cookies None.

(** [`${v}`] for a [string | null]. *)
Definition nullable_text (v : option string) : string :=
  match v with
  | Some s => s
  | None => "null"
  end.

Definition nullable_value (v : option string) : JsValue :=
  match v with
  | Some s => JsString s
  | None => JsNull
  end.

Section OAuth.
Context {RT : Runtime}.

Definition throwIfPrivateApp (isPrivateApp : bool) (message : string)
  : M unit :=
  if isPrivateApp then throw (PrivateAppError message) else ret tt.

(** Modelled from the spec: utils/shop-validator is not among the
    files; section 3 requires that a shop satisfy the platform's
    shop-domain syntax before it is embedded in an id or URL, and
    section 4.4 names the failure.  This is the call with
    [throwOnInvalid = true]. *)
Definition sanitizeShop (config : Config) (shop : option string)
  : M string :=
  match shop with
  | Some s =>
      if validShop config s then ret s
      else throw (InvalidShopError "Received invalid shop argument")
  | None => throw (InvalidShopError "Received invalid shop argument")
  end.

(** Modelled from the spec: session/session-utils is not among the
    files; sections 3 and 4.4 give [offline_<shop>]. *)
Definition getOfflineId (config : Config) (shop : string) : M string :=
  cleanShop <- sanitizeShop config (Some shop) ;;
  ret ("offline_" ++ cleanShop).

(** Modelled from the spec: session/session-utils is not among the
    files; sections 3 and 4.4 give the [<shop>_<userId>] shape. *)
Definition getJwtSessionId (config : Config) (shop userId : string)
  : M string :=
  cleanShop <- sanitizeShop config (Some shop) ;;
  ret (cleanShop ++ "_" ++ userId).

(** Modelled from the spec: ./safe-compare is not among the files;
    sections 4.3 and 4.5 describe a constant-time equality.  Timing is
    outside the model; a missing value equals no string. *)
Definition safeCompare (a : option string) (b : string) : bool :=
  match a with
  | Some s => String.eqb s b
  | None => false
  end.

(** Modelled from the spec: utils/processed-query is not among the
    files; section 6 gives the query string it builds,
    [?k1=v1&k2=v2..], in the order the entries were put. *)
Definition ProcessedQuery_stringify (entries : list (string * string))
  : string :=
  "?" ++ join "&"
           (map (fun kv => urlencode (fst kv) ++ "=" ++ urlencode (snd kv))
                entries).

(** [query.get(name)]: the first value under that name, or [null]. *)
Definition searchParams_get (query : list (string * string)) (name : string)
  : option string :=
  assoc name query.

Definition begin (config : Config) (params : BeginParams.t)
  : M NormalizedResponse.t :=
  let shop := BeginParams.shop params in
  let callbackPath := BeginParams.callbackPath params in
  let isOnline := BeginParams.isOnline params in
  let adapterArgs := BeginParams.adapterArgs params in
  throwIfPrivateApp (isPrivateApp config)
    "Cannot perform OAuth for private apps" ;;;
  log (LogInfo "Beginning OAuth"
         [("shop", JsString shop); ("isOnline", JsBool isOnline);
          ("callbackPath", JsString callbackPath)]) ;;;
  cleanShop <- sanitizeShop config (Some shop) ;;
  let request := abstractConvertRequest adapterArgs in
  let cookies := Cookies.new request [apiSecretKey config] true in
  state <- nonce ;;
  today <- Date_now ;;
  cookies <- Cookies.setAndSign cookies STATE_COOKIE_NAME state
               (Some (new_Date (Num (today + 60000))))
               (Some "lax") (Some true) (Some callbackPath) ;;
  let query :=
    [("client_id", apiKey config);
     ("scope", scopes config);
     ("redirect_uri",
      hostScheme config ++ "://" ++ hostName config ++ callbackPath);
     ("state", state);
     ("grant_options[]", if isOnline then "per-user" else "")] in
  let redirectUrl :=
    "https://" ++ cleanShop ++ "/admin/oauth/authorize"
    ++ ProcessedQuery_stringify query in
  let response :=
    NormalizedResponse.mk 302 "Found"
      (Headers.mk (Cookies.outgoing cookies) (Some redirectUrl)) in
  log (LogDebug ("OAuth started, redirecting to " ++ redirectUrl)
         [("shop", JsString shop); ("isOnline", JsBool isOnline)]) ;;;
  ret (abstractConvertResponse response).

Definition validQuery (config : Config) (query : list (string * string))
    (stateFromCookie : string) : bool :=
  validateHmac config query
  && safeCompare (assoc "state" query) stateFromCookie.

Definition createSession (config : Config) (postResponse : RequestReturn.t)
    (shop : string) (stateFromCookie : string) : M Session.t :=
  let associatedUser :=
    prop (RequestReturn.body postResponse) "associated_user" in
  let isOnline := Boolean associatedUser in
  log (LogInfo "Creating new session"
         [("shop", JsString shop); ("isOnline", JsBool isOnline)]) ;;;
  if isOnline then
    let responseBody := RequestReturn.body postResponse in
    let access_token := prop responseBody "access_token" in
    let scope := prop responseBody "scope" in
    let rest := rest_without ["access_token"; "scope"] responseBody in
    today <- Date_now ;;
    let sessionExpiration :=
      new_Date (number_add (Num today)
                 (number_mul (ToNumber (prop responseBody "expires_in"))
                             (Num 1000))) in
    sessionId <-
      (if isEmbeddedApp config then
         getJwtSessionId config shop
           (ToString (member (prop rest "associated_user") "id"))
       else uuidv4) ;;
    ret (Session.new sessionId shop stateFromCookie isOnline
           access_token scope (Some sessionExpiration) (Some rest))
  else
    let responseBody := RequestReturn.body postResponse in
    sessionId <- getOfflineId config shop ;;
    ret (Session.new sessionId shop stateFromCookie isOnline
           (prop responseBody "access_token") (prop responseBody "scope")
           None None).

Definition callback (config : Config) (params : CallbackParams.t)
  : M CallbackResponse.t :=
  let isOnlineParam := CallbackParams.isOnline params in
  let adapterArgs := CallbackParams.adapterArgs params in
  throwIfPrivateApp (isPrivateApp config)
    "Cannot perform OAuth for private apps" ;;;
  (match isOnlineParam with
   | Some _ =>
       log (LogDeprecated "7.0.0"
              "The isOnline param is no longer required for auth callback")
   | None => ret tt
   end) ;;;
  let request := abstractConvertRequest adapterArgs in
  let query :=
    searchParams (NormalizedRequest.url request)
                 (hostScheme config ++ "://" ++ hostName config) in
  let shop := searchParams_get query "shop" in
  log (LogInfo "Completing OAuth" [("shop", nullable_value shop)]) ;;;
  let cookies := Cookies.new request [apiSecretKey config] true in
  let stateFromCookie := Cookies.getAndVerify cookies STATE_COOKIE_NAME in
  let cookies := Cookies.deleteCookie cookies STATE_COOKIE_NAME in
  if negb (truthy_string stateFromCookie) then
    log (LogError "Could not find OAuth cookie"
           [("shop", nullable_value shop)]) ;;;
    throw (CookieNotFound
             ("Cannot complete OAuth process. Could not find an OAuth cookie for shop url: "
              ++ nullable_text shop))
  else
  let stateFromCookie :=
    match stateFromCookie with Some s => s | None => "" end in
  let authQuery := Object_fromEntries query in
  if negb (validQuery config authQuery stateFromCookie) then
    log (LogError "Invalid OAuth callback"
           [("shop", nullable_value shop);
            ("stateFromCookie", JsString stateFromCookie)]) ;;;
    throw (InvalidOAuthError "Invalid OAuth callback.")
  else
  log (LogDebug "OAuth request is valid, requesting access token"
         [("shop", nullable_value shop)]) ;;;
  let body :=
    [("client_id", JsString (apiKey config));
     ("client_secret", JsString (apiSecretKey config));
     ("code", nullable_value (searchParams_get query "code"))] in
  cleanShop <- sanitizeShop config (searchParams_get query "shop") ;;
  let client := HttpClient.new cleanShop in
  postResponse <- post client "/admin/oauth/access_token"
                    DataType_JSON (DataObject body) None None None ;;
  session <- createSession config postResponse cleanShop stateFromCookie ;;
  cookies <-
    (if negb (isEmbeddedApp config) then
       Cookies.setAndSign cookies SESSION_COOKIE_NAME
         (Session.id session) (Session.expires session)
         (Some "lax") (Some true) None
     else ret cookies) ;;
  ret (CallbackResponse.mk
         (abstractConvertHeaders (Cookies.outgoing cookies)) session).

End OAuth.

(** ** The GraphQL client *)

Module GraphqlParams.
Record t : Type := mk {
  data : PostData;
  query : option JsDict;
  extraHeaders : option JsDict;
  tries : option Z;
}.
End GraphqlParams.

Module GraphqlClientParams.
Record t : Type := mk {
  session : Session.t;
}.
End GraphqlClientParams.

Module AccessTokenHeader.
Record t : Type := mk {
  header : string;
  value : JsValue;
}.
End AccessTokenHeader.

(** [Object.entries(data).length]: a string has one entry per unit. *)
Definition Object_entries_length (data : PostData) : nat :=
  match data with
  | DataString s => String.length s
  | DataObject o => List.length o
  end.

Module GraphqlClient.
(** An instance of the class that [graphqlClientClass] returns: the
    static [CONFIG] is the configuration given there, and the static
    [HTTP_CLIENT] is the HTTP collaborator of the world. *)
Record t : Type := mk {
  CONFIG : Config;
  baseApiPath : string;
  session : Session.t;
  client : HttpClient.t;
}.

Section Methods.
Context {RT : Runtime}.

Definition constructor (config : Config) (params : GraphqlClientParams.t)
  : M t :=
  if negb (isPrivateApp config)
     && negb (Boolean (Session.accessToken
                         (GraphqlClientParams.session params)))
  then
    throw (MissingRequiredArgument
             "Missing access token when creating GraphQL client")
  else
    let session := GraphqlClientParams.session params in
    ret (mk config "/admin/api" session
            (HttpClient.new (Session.shop session))).

Definition getAccessTokenHeader (this : t) : AccessTokenHeader.t :=
  AccessTokenHeader.mk ShopifyHeader_AccessToken
    (if isPrivateApp (CONFIG this)
     then JsString (apiSecretKey (CONFIG this))
     else Session.accessToken (session this)).

(** The assignment to [params.extraHeaders] is kept as the local
    [extraHeaders]: the caller's view of [params] is not modelled. *)
Definition query (this : t) (params : GraphqlParams.t)
  : M RequestReturn.t :=
  let data := GraphqlParams.data params in
  if (match data with
      | DataString s => Nat.eqb (String.length s) 0
      | DataObject _ => false
      end)
     || Nat.eqb (Object_entries_length data) 0
  then throw (MissingRequiredArgument "Query missing.")
  else
    let accessTokenHeader := getAccessTokenHeader this in
    let extraHeaders :=
      spread [(AccessTokenHeader.header accessTokenHeader,
               AccessTokenHeader.value accessTokenHeader)]
             (match GraphqlParams.extraHeaders params with
              | Some h => h
              | None => []
              end) in
    let path :=
      baseApiPath this ++ "/" ++ apiVersion (CONFIG this)
      ++ "/graphql.json" in
    let dataType :=
      match data with
      | DataObject _ => DataType_JSON
      | DataString _ => DataType_GraphQL
      end in
    result <- post (client this) path dataType data
                (GraphqlParams.query params) (Some extraHeaders)
                (GraphqlParams.tries params) ;;
    if Boolean (prop (RequestReturn.body result) "errors") then
      throw (GraphqlQueryError "GraphQL query returned errors"
               (RequestReturn.body result))
    else ret result.

End Methods.
End GraphqlClient.

(** [graphqlClientClass({config})]: the class bound to [config]. *)
Definition graphqlClientClass {RT : Runtime} (config : Config)
  : GraphqlClientParams.t -> M GraphqlClient.t :=
  GraphqlClient.constructor config.

(** ** Shapes named by the specification *)

(** The request [callback] sends to the token endpoint. *)
Definition token_request (config : Config) (shop : string)
    (code : option string) : HttpRequest.t :=
  HttpRequest.mk shop "/admin/oauth/access_token" DataType_JSON
    (DataObject
       [("client_id", JsString (apiKey config));
        ("client_secret", JsString (apiSecretKey config));
        ("code", nullable_value code)])
    None None None.

(** A well-formed token-exchange result (section 3 of the
    specification, [AccessTokenResponse] and [OnlineAccessResponse] in
    the code): [access_token] and [scope] are strings, and
    [associated_user], when there is one, is an object that comes with
    a numeric [expires_in]. *)
Definition TokenExchangeResult (body : JsDict) : bool :=
  match assoc "access_token" body, assoc "scope" body with
  | Some (JsString _), Some (JsString _) =>
      match assoc "associated_user" body with
      | None => true
      | Some (JsObject _) =>
          match assoc "expires_in" body with
          | Some (JsNumber _) => true
          | _ => false
          end
      | Some _ => false
      end
  | _, _ => false
  end.

(** The cookie that [deleteCookie] leaves in the outgoing bag. *)
Definition deleted_cookie (name : string) : CookieData.t :=
  CookieData.mk name "" None (Some (Date_of (Num 0))) None None None.

(** The entry [callback] logs when it is given an [isOnline]. *)
Definition deprecation_notice (params : CallbackParams.t) : list LogEntry :=
  match CallbackParams.isOnline params with
  | Some _ =>
      [LogDeprecated "7.0.0"
         "The isOnline param is no longer required for auth callback"]
  | None => []
  end.

(** The world after one more log entry. *)
Definition logged (e : LogEntry) (w : World) : World :=
  mkWorld (now w) (rng w) (drawn w) (server w) (sent w) (logs w ++ [e]).

(** The world after one more draw from the random source. *)
Definition drew (w : World) : World :=
  mkWorld (now w) (rng w) (S (drawn w)) (server w) (sent w) (logs w).

(** The world after one more request. *)
Definition posted (request : HttpRequest.t) (w : World) : World :=
  mkWorld (now w) (rng w) (drawn w) (server w) (sent w ++ [request])
          (logs w).

(** The entry [createSession] logs first. *)
Definition creation_entry (shop : string) (online : bool) : LogEntry :=
  LogInfo "Creating new session"
    [("shop", JsString shop); ("isOnline", JsBool online)].

Section Shapes.
Context {RT : Runtime}.

(** The expiry of an online session created in [w] from [body]. *)
Definition expiration (w : World) (body : JsDict) : JsDate :=
  new_Date (number_add (Num (now w))
             (number_mul (ToNumber (prop body "expires_in")) (Num 1000))).

(** The session cookie [callback] writes for a session. *)
Definition session_cookie (config : Config) (session : Session.t)
  : CookieData.t :=
  CookieData.mk SESSION_COOKIE_NAME (Session.id session)
    (Some (createSHA256HMAC (apiSecretKey config) (Session.id session)))
    (Session.expires session) (Some "lax") (Some true) None.

(** The base URL [callback] resolves the request URL against. *)
Definition base_url (config : Config) : string :=
  hostScheme config ++ "://" ++ hostName config.

(** The state cookie of a request, as the jar of [callback] reads it. *)
Definition state_cookie (config : Config) (request : NormalizedRequest.t)
  : option string :=
  Cookies.getAndVerify (Cookies.new request [apiSecretKey config] true)
                       STATE_COOKIE_NAME.

(** The query parameters of a callback request. *)
Definition query_of (config : Config) (params : CallbackParams.t)
  : list (string * string) :=
  searchParams (NormalizedRequest.url (CallbackParams.adapterArgs params))
               (base_url config).

(** The world once [callback] has dealt with its [isOnline] parameter. *)
Definition after_notice (params : CallbackParams.t) (w : World) : World :=
  match CallbackParams.isOnline params with
  | Some _ =>
      logged (LogDeprecated "7.0.0"
                "The isOnline param is no longer required for auth callback")
             w
  | None => w
  end.

(** The world once [callback] has logged that it starts. *)
Definition at_cookie_check (config : Config) (params : CallbackParams.t)
    (w : World) : World :=
  logged (LogInfo "Completing OAuth"
            [("shop",
              nullable_value
                (searchParams_get (query_of config params) "shop"))])
         (after_notice params w).

(** The world in which [callback] creates the session: the exchange
    with the token endpoint is behind it. *)
Definition at_session (config : Config) (params : CallbackParams.t)
    (shop : string) (w : World) : World :=
  posted (token_request config shop
            (searchParams_get (query_of config params) "code"))
    (logged (LogDebug "OAuth request is valid, requesting access token"
               [("shop",
                 nullable_value
                   (searchParams_get (query_of config params) "shop"))])
            (at_cookie_check config params w)).

(** The headers a successful [callback] returns with a session. *)
Definition callback_headers (config : Config) (session : Session.t)
  : Headers.t :=
  Headers.mk
    (deleted_cookie STATE_COOKIE_NAME
     :: (if isEmbeddedApp config then [] else [session_cookie config session]))
    None.

(** What [callback] logs, and throws, when the state cookie is missing. *)
Definition cookie_missing_entry (config : Config) (params : CallbackParams.t)
  : LogEntry :=
  LogError "Could not find OAuth cookie"
    [("shop",
      nullable_value (searchParams_get (query_of config params) "shop"))].

Definition cookie_missing_error (config : Config) (params : CallbackParams.t)
  : ShopifyError :=
  CookieNotFound
    ("Cannot complete OAuth process. Could not find an OAuth cookie for shop url: "
     ++ nullable_text (searchParams_get (query_of config params) "shop")).

(** What [callback] logs when the query does not validate. *)
Definition invalid_callback_entry (config : Config)
    (params : CallbackParams.t) (stateFromCookie : string) : LogEntry :=
  LogError "Invalid OAuth callback"
    [("shop",
      nullable_value (searchParams_get (query_of config params) "shop"));
     ("stateFromCookie", JsString stateFromCookie)].

(** The headers [query] sends: the access-token header, then the
    caller's extra headers written over it. *)
Definition graphql_headers (client : GraphqlClient.t)
    (params : GraphqlParams.t) : JsDict :=
  spread
    [(ShopifyHeader_AccessToken,
      AccessTokenHeader.value (GraphqlClient.getAccessTokenHeader client))]
    (match GraphqlParams.extraHeaders params with
     | Some h => h
     | None => []
     end).

(** The request [query] sends for non-empty data. *)
Definition graphql_request (client : GraphqlClient.t)
    (params : GraphqlParams.t) : HttpRequest.t :=
  HttpRequest.mk
    (HttpClient.domain (GraphqlClient.client client))
    (GraphqlClient.baseApiPath client ++ "/"
     ++ apiVersion (GraphqlClient.CONFIG client) ++ "/graphql.json")
    (match GraphqlParams.data params with
     | DataObject _ => DataType_JSON
     | DataString _ => DataType_GraphQL
     end)
    (GraphqlParams.data params)
    (GraphqlParams.query params)
    (Some (graphql_headers client params))
    (GraphqlParams.tries params).

End Shapes.

(** ** A concrete application, after the scenarios of the specification *)

Module Scenario.

Fixpoint split_on (c : ascii) (s : string) : list string :=
  match s with
  | EmptyString => [EmptyString]
  | String a rest =>
      if Ascii.eqb a c then EmptyString :: split_on c rest
      else match split_on c rest with
           | [] => [String a EmptyString]
           | x :: xs => String a x :: xs
           end
  end.

Definition parse_pair (s : string) : string * string :=
  match split_on "="%char s with
  | k :: v :: _ => (k, v)
  | [k] => (k, "")
  | [] => ("", "")
  end.

Definition parse_query (url : string) : list (string * string) :=
  match split_on "?"%char url with
  | _ :: q :: _ => map parse_pair (split_on "&"%char q)
  | _ => []
  end.

Definition ends_with (suffix s : string) : bool :=
  let n := String.length s in
  let m := String.length suffix in
  Nat.leb m n && String.eqb (substring (n - m) m s) suffix.

Definition decimal (n : Z) : string := NilZero.string_of_int (Z.to_int n).

Fixpoint checksum (acc : Z) (s : string) : Z :=
  match s with
  | EmptyString => acc
  | String a rest =>
      checksum ((acc * 31 + Z.of_nat (nat_of_ascii a)) mod 1000003) rest
  end.

(** A stand-in for the keyed hash, good enough to run the scenarios. *)
Definition toy_mac (key value : string) : string :=
  "mac" ++ decimal (checksum 7 (key ++ ":" ++ value)).

Definition canonical (query : list (string * string)) : string :=
  join "&"
    (map (fun kv => fst kv ++ "=" ++ snd kv)
         (filter (fun kv => negb (String.eqb (fst kv) "hmac")) query)).

Definition parse_decimal (s : string) : number :=
  if String.eqb s "" then Num 0
  else match NilZero.int_of_string s with
       | Some i => Num (Z.of_int i)
       | None => NaN
       end.

#[export] Instance runtime : Runtime := {|
  createSHA256HMAC := toy_mac;
  validShop := fun _ s => ends_with ".myshopify.io" s;
  validateHmac := fun config query =>
    match assoc "hmac" query with
    | Some h => String.eqb h (toy_mac (apiSecretKey config) (canonical query))
    | None => false
    end;
  searchParams := fun url _ => parse_query url;
  urlencode := fun s => s;
  StringToNumber := parse_decimal;
  NumberToString := decimal;
  STATE_COOKIE_NAME := "shopify_app_state";
  SESSION_COOKIE_NAME := "shopify_app_session";
  ShopifyHeader_AccessToken := "X-Shopify-Access-Token";
|}.

Definition config (embedded private : bool) : Config :=
  mkConfig "test_key" "test_secret_key" "read_products" "app.example.io"
           "https" "2022-10" embedded private.

(** A world whose remote end answers every request with [answer]. *)
Definition world (answer : JsDict) : World :=
  mkWorld 1667433600000
          (fun n => "draw-" ++ decimal (Z.of_nat n)) 0
          (fun _ _ => inr (RequestReturn.mk answer []))
          [] [].

Definition offline_answer : JsDict :=
  [("access_token", JsString "tok"); ("scope", JsString "read_products")].

Definition online_answer : JsDict :=
  [("access_token", JsString "tok"); ("scope", JsString "read_products");
   ("expires_in", JsNumber 3600);
   ("associated_user_scope", JsString "read_products");
   ("associated_user", JsObject [("id", JsNumber 999)])].

Definition begin_params (online : bool) : BeginParams.t :=
  BeginParams.mk "shop1.myshopify.io" "/auth/callback" online
    (NormalizedRequest.mk "/auth/begin" []).

(** The response of scenario A: the first draw of the random source is
    the nonce. *)
Definition begin_response : NormalizedResponse.t :=
  NormalizedResponse.mk 302 "Found"
    (Headers.mk
       [CookieData.mk "shopify_app_state" "draw-0"
          (Some (toy_mac "test_secret_key" "draw-0"))
          (Some (Date_of (Num 1667433660000)))
          (Some "lax") (Some true) (Some "/auth/callback")]
       (Some
          ("https://shop1.myshopify.io/admin/oauth/authorize"
           ++ "?client_id=test_key&scope=read_products"
           ++ "&redirect_uri=https://app.example.io/auth/callback"
           ++ "&state=draw-0&grant_options[]="))).

Definition callback_query (state : string) : string :=
  "shop=shop1.myshopify.io&code=abc&state=" ++ state ++ "&timestamp=1000".

(** A callback request carrying the state cookie [cookie] signed with
    the application's secret, and a query string signed for [state]. *)
Definition callback_request (cookie state : string) : NormalizedRequest.t :=
  NormalizedRequest.mk
    ("/auth/callback?" ++ callback_query state ++ "&hmac="
     ++ toy_mac "test_secret_key" (callback_query state))
    [("shopify_app_state", (cookie, toy_mac "test_secret_key" cookie))].

Definition callback_params (cookie state : string) : CallbackParams.t :=
  CallbackParams.mk None (callback_request cookie state).

(** The session of scenario B: an offline token for shop1. *)
Definition offline_session : Session.t :=
  Session.new "offline_shop1.myshopify.io" "shop1.myshopify.io" "n1" false
              (JsString "tok") (JsString "read_products") None None.

(** The session of scenario C: an online token for user 999. *)
Definition online_session (id : string) : Session.t :=
  Session.new id "shop1.myshopify.io" "n1" true
    (JsString "tok") (JsString "read_products")
    (Some (Date_of (Num 1667437200000)))
    (Some [("expires_in", JsNumber 3600);
           ("associated_user_scope", JsString "read_products");
           ("associated_user", JsObject [("id", JsNumber 999)])]).

(** What [callback] returns with a session, by the kind of application. *)
Definition response_for (embedded : bool) (session : Session.t)
  : CallbackResponse.t :=
  CallbackResponse.mk
    (Headers.mk
       (deleted_cookie "shopify_app_state"
        :: (if embedded then []
            else [CookieData.mk "shopify_app_session" (Session.id session)
                    (Some (toy_mac "test_secret_key" (Session.id session)))
                    (Session.expires session) (Some "lax") (Some true)
                    None]))
       None)
    session.

Definition session_with (token : JsValue) : Session.t :=
  Session.new "1234" "test-shop.myshopify.io" "1234" true token
              JsUndefined None None.

Definition graphql_client (private : bool) (token : JsValue)
  : GraphqlClient.t :=
  GraphqlClient.mk (config false private) "/admin/api" (session_with token)
                   (HttpClient.new "test-shop.myshopify.io").

Definition shop_name_query : GraphqlParams.t :=
  GraphqlParams.mk (DataString "{ shop { name } }") None None None.

(** A GraphQL answer that carries an [errors] member set to [null]. *)
Definition null_errors_answer : JsDict :=
  [("data", JsObject [("shop", JsObject [("name", JsString "Shop 1")])]);
   ("errors", JsNull)].

End Scenario.

(** ** Further shapes of the flow *)

Section MoreShapes.
Context {RT : Runtime}.

(** The entry [callback] logs when it starts. *)
Definition completing_entry (config : Config) (params : CallbackParams.t)
  : LogEntry :=
  LogInfo "Completing OAuth"
    [("shop",
      nullable_value (searchParams_get (query_of config params) "shop"))].

(** The entry [callback] logs once the query has passed validation. *)
Definition valid_entry (config : Config) (params : CallbackParams.t)
  : LogEntry :=
  LogDebug "OAuth request is valid, requesting access token"
    [("shop",
      nullable_value (searchParams_get (query_of config params) "shop"))].

(** The world in which [callback] turns to the token endpoint. *)
Definition at_exchange (config : Config) (params : CallbackParams.t)
    (w : World) : World :=
  logged (valid_entry config params) (at_cookie_check config params w).

(** The two entries a successful [begin] logs. *)
Definition begin_entries (config : Config) (params : BeginParams.t)
    (state : string) : list LogEntry :=
  [LogInfo "Beginning OAuth"
     [("shop", JsString (BeginParams.shop params));
      ("isOnline", JsBool (BeginParams.isOnline params));
      ("callbackPath", JsString (BeginParams.callbackPath params))];
   LogDebug
     ("OAuth started, redirecting to "
      ++ ("https://" ++ BeginParams.shop params ++ "/admin/oauth/authorize"
          ++ ProcessedQuery_stringify
               [("client_id", apiKey config);
                ("scope", scopes config);
                ("redirect_uri",
                 hostScheme config ++ "://" ++ hostName config
                 ++ BeginParams.callbackPath params);
                ("state", state);
                ("grant_options[]",
                 if BeginParams.isOnline params then "per-user" else "")]))
     [("shop", JsString (BeginParams.shop params));
      ("isOnline", JsBool (BeginParams.isOnline params))]].

(** The [Cookie] header a client sends back after a response: each
    cookie of the [Set-Cookie] bag that carries a signature, as its
    value and that signature. *)
Definition returned_cookies (cookies : list CookieData.t)
  : list (string * (string * string)) :=
  flat_map
    (fun c =>
       match CookieData.signature c with
       | Some mac => [(CookieData.name c, (CookieData.value c, mac))]
       | None => []
       end)
    cookies.

End MoreShapes.

(** ** Helpers of the webhook tests *)

Module ShopifyHeader.
(** The header names of [ShopifyHeader] that the helper uses. *)
Record t : Type := mk {
  Hmac : string;
  Topic : string;
  Domain : string;
  WebhookId : string;
}.
End ShopifyHeader.

Module HeadersArgs.
(** The argument of [headers]: every member may be left out. *)
Record t : Type := mk {
  hmac : option string;
  topic : option string;
  domain : option string;
  webhookId : option string;
  lowercase : option bool;
}.
End HeadersArgs.

(** A destructuring default: it applies to a member that is missing. *)
Definition or_default {A : Type} (d : A) (o : option A) : A :=
  match o with
  | Some a => a
  | None => d
  end.

(** [headers({hmac, topic, domain, webhookId, lowercase} = {})]: an
    object literal with four computed keys, written in this order.
    [toLowerCase] is [String.prototype.toLowerCase]. *)
Definition headers (names : ShopifyHeader.t)
    (toLowerCase : string -> string) (args : option HeadersArgs.t)
  : list (string * string) :=
  let args := or_default (HeadersArgs.mk None None None None None) args in
  let hmac := or_default "fake" (HeadersArgs.hmac args) in
  let topic := or_default "products/create" (HeadersArgs.topic args) in
  let domain := or_default "shop1.myshopify.io" (HeadersArgs.domain args) in
  let webhookId := or_default "123456789" (HeadersArgs.webhookId args) in
  let lowercase := or_default false (HeadersArgs.lowercase args) in
  let key := fun k => if lowercase then toLowerCase k else k in
  assign (key (ShopifyHeader.WebhookId names)) webhookId
    (assign (key (ShopifyHeader.Domain names)) domain
       (assign (key (ShopifyHeader.Topic names)) topic
          (assign (key (ShopifyHeader.Hmac names)) hmac []))).

Module RawBody.
(** What the request stream emits to the handlers that [parseRawBody]
    registers. *)
Inductive Event : Type :=
| data (chunk : string)
| finished.

(** The part of the request and of the middleware chain that
    [parseRawBody] touches: [req.rawBody], and how often [next] ran. *)
Record t : Type := mk {
  rawBody : string;
  next_calls : nat;
}.

(** The handlers of ['data'] and of ['end']. *)
Definition on (req : t) (e : Event) : t :=
  match e with
  | data chunk => mk (rawBody req ++ chunk) (next_calls req)
  | finished => mk (rawBody req) (S (next_calls req))
  end.

(** [parseRawBody(req, _res, next)], run against the events of the
    request: [rawBody] starts empty and the handlers take it from
    there. *)
Definition parseRawBody (events : list Event) : t :=
  fold_left on events (mk "" 0).

Definition chunks (events : list Event) : list string :=
  flat_map (fun e => match e with data c => [c] | finished => [] end) events.

Definition ends (events : list Event) : nat :=
  List.length
    (filter (fun e => match e with finished => true | data _ => false end)
            events).

End RawBody.

(** ** Further scenarios *)

Module Replay.

(** A callback whose query names two shops: the first is shop1, the
    second shop2, and the query is signed as the object built from its
    entries reads, with shop2. *)
Definition two_shops_query (state : string) : string :=
  "shop=shop1.myshopify.io&code=abc&state=" ++ state
  ++ "&timestamp=1000&shop=shop2.myshopify.io".

Definition two_shops_request (cookie state : string)
  : NormalizedRequest.t :=
  NormalizedRequest.mk
    ("/auth/callback?" ++ two_shops_query state ++ "&hmac="
     ++ Scenario.toy_mac "test_secret_key"
          ("shop=shop2.myshopify.io&code=abc&state=" ++ state
           ++ "&timestamp=1000"))
    [("shopify_app_state",
      (cookie, Scenario.toy_mac "test_secret_key" cookie))].

(** A world whose remote end refuses every request. *)
Definition refusing_world : World :=
  mkWorld 1667433600000
          (fun n => "draw-" ++ Scenario.decimal (Z.of_nat n)) 0
          (fun _ _ => inl "Received an error response (400 Bad Request)")
          [] [].

(** A callback request without any [shop] parameter. *)
Definition shopless_request : NormalizedRequest.t :=
  NormalizedRequest.mk
    ("/auth/callback?code=abc&state=n1&timestamp=1000&hmac="
     ++ Scenario.toy_mac "test_secret_key"
          "code=abc&state=n1&timestamp=1000")
    [("shopify_app_state", ("n1", Scenario.toy_mac "test_secret_key" "n1"))].

(** The callback request of a client that follows the redirect of
    [response] and sends its cookies back. *)
Definition follow (response : NormalizedResponse.t) (state : string)
  : NormalizedRequest.t :=
  NormalizedRequest.mk
    ("/auth/callback?" ++ Scenario.callback_query state ++ "&hmac="
     ++ Scenario.toy_mac "test_secret_key" (Scenario.callback_query state))
    (returned_cookies
       (Headers.SetCookie (NormalizedResponse.headers response))).

(** The application of the scenarios: not embedded, not private. *)
Definition app : Config := Scenario.config false false.

(** An online answer whose token is to last for 10^13 seconds. *)
Definition far_future_answer : JsDict :=
  [("access_token", JsString "tok"); ("scope", JsString "read_products");
   ("expires_in", JsNumber 10000000000000);
   ("associated_user_scope", JsString "read_products");
   ("associated_user", JsObject [("id", JsNumber 999)])].

(** The session [createSession] builds from it: its date is invalid. *)
Definition far_future_session : Session.t :=
  Session.new "shop1.myshopify.io_999" "shop1.myshopify.io" "n1" true
    (JsString "tok") (JsString "read_products")
    (Some (Date_of NaN))
    (Some [("expires_in", JsNumber 10000000000000);
           ("associated_user_scope", JsString "read_products");
           ("associated_user", JsObject [("id", JsNumber 999)])]).

(** The callback of a client that followed the redirect of scenario A
    and kept its nonce as the state. *)
Definition followed : CallbackParams.t :=
  CallbackParams.mk None (follow Scenario.begin_response "draw-0").

Definition followed_session : Session.t :=
  Session.new "offline_shop1.myshopify.io" "shop1.myshopify.io" "draw-0"
              false (JsString "tok") (JsString "read_products") None None.

(** A query that brings its own access-token header. *)
Definition overriding_query : GraphqlParams.t :=
  GraphqlParams.mk (DataString "{ shop { name } }") None
    (Some [("X-Shopify-Access-Token", JsString "caller_token")]) None.

(** A genuine callback for shop1 with state [n1]. *)
Definition genuine : CallbackParams.t := Scenario.callback_params "n1" "n1".

Definition shop1 : string := "shop1.myshopify.io".

End Replay.

(** * Properties *)

(** ** The monad and the jar *)

Section Flow.
Context {RT : Runtime}.

Lemma bind_inr {A B : Type} (m : M A) (f : A -> M B) (w w1 : World) (a : A) :
  m w = (inr a, w1) -> bind m f w = f a w1.
Proof. intros H. unfold bind. rewrite H. reflexivity. Qed.

Lemma bind_inl {A B : Type} (m : M A) (f : A -> M B) (w w1 : World)
    (e : ShopifyError) :
  m w = (inl e, w1) -> bind m f w = (inl e, w1).
Proof. intros H. unfold bind. rewrite H. reflexivity. Qed.

Lemma bind_ok_inv {A B : Type} (m : M A) (f : A -> M B) (w w2 : World)
    (b : B) :
  bind m f w = (inr b, w2) ->
  exists a w1, m w = (inr a, w1) /\ f a w1 = (inr b, w2).
Proof.
  unfold bind. destruct (m w) as [[e | a] w1]; intros H.
  - discriminate.
  - exists a, w1. split; [reflexivity | exact H].
Qed.

(** A verified cookie is an inbound cookie whose MAC matches under one
    of the keys. *)
Lemma getAndVerify_Some (jar : Cookies.t) (name value : string) :
  Cookies.getAndVerify jar name = Some value <->
  exists mac,
    assoc name (Cookies.received jar) = Some (value, mac) /\
    exists key, In key (Cookies.keys jar) /\ createSHA256HMAC key value = mac.
Proof.
  unfold Cookies.getAndVerify.
  destruct (assoc name (Cookies.received jar)) as [[v m] | ].
  - destruct (existsb _ _) eqn:E.
    + apply existsb_exists in E. destruct E as [key [Hin Heq]].
      apply String.eqb_eq in Heq. split.
      * intros H. injection H as <-. exists m. split; [reflexivity | ].
        exists key. split; assumption.
      * intros [mac [H _]]. injection H as <- _. reflexivity.
    + split; [discriminate | ].
      intros [mac [H [key [Hin Heq]]]]. injection H as <- <-.
      assert (existsb (fun k => String.eqb (createSHA256HMAC k v) m)
                      (Cookies.keys jar) = true) as C.
      { apply existsb_exists. exists key. split; [assumption | ].
        apply String.eqb_eq. assumption. }
      rewrite C in E. discriminate.
  - split; [discriminate | ]. intros [mac [H _]]. discriminate.
Qed.

Lemma sanitizeShop_ok (cfg : Config) (shop : option string) (w w1 : World)
    (clean : string) :
  sanitizeShop cfg shop w = (inr clean, w1) ->
  shop = Some clean /\ validShop cfg clean = true /\ w1 = w.
Proof.
  unfold sanitizeShop. destruct shop as [s | ].
  - destruct (validShop cfg s) eqn:V; unfold ret, throw; intros H.
    + injection H as <- <-. repeat split; assumption.
    + discriminate.
  - unfold throw. discriminate.
Qed.

Lemma sanitizeShop_valid (cfg : Config) (shop : string) (w : World) :
  validShop cfg shop = true ->
  sanitizeShop cfg (Some shop) w = (inr shop, w).
Proof. intros V. unfold sanitizeShop. rewrite V. reflexivity. Qed.

(** ** What [createSession] builds *)

Lemma createSession_offline (cfg : Config) (resp : RequestReturn.t)
    (shop st : string) (w : World) :
  Boolean (prop (RequestReturn.body resp) "associated_user") = false ->
  validShop cfg shop = true ->
  createSession cfg resp shop st w =
  (inr (Session.new ("offline_" ++ shop) shop st false
          (prop (RequestReturn.body resp) "access_token")
          (prop (RequestReturn.body resp) "scope") None None),
   logged (creation_entry shop false) w).
Proof.
  intros B V. unfold createSession. rewrite B.
  unfold bind, log, getOfflineId, bind. rewrite sanitizeShop_valid by exact V.
  reflexivity.
Qed.

Lemma assoc_rest_without (ks : list string) (o : JsDict) (k : string) :
  existsb (String.eqb k) ks = false ->
  assoc k (rest_without ks o) = assoc k o.
Proof.
  intros Hk. unfold rest_without.
  induction o as [ | [k' v] o IH]; [reflexivity | ].
  cbn [filter fst assoc]. destruct (String.eqb k k') eqn:E.
  - apply String.eqb_eq in E. subst k'. rewrite Hk. cbn [negb assoc].
    rewrite String.eqb_refl. reflexivity.
  - destruct (negb _); [ | exact IH].
    cbn [assoc]. rewrite E. exact IH.
Qed.

Lemma prop_rest_without (ks : list string) (o : JsDict) (k : string) :
  existsb (String.eqb k) ks = false ->
  prop (rest_without ks o) k = prop o k.
Proof.
  intros Hk. unfold prop. rewrite assoc_rest_without by exact Hk.
  reflexivity.
Qed.

Lemma createSession_embedded (cfg : Config) (resp : RequestReturn.t)
    (shop st : string) (w : World) :
  Boolean (prop (RequestReturn.body resp) "associated_user") = true ->
  isEmbeddedApp cfg = true ->
  validShop cfg shop = true ->
  createSession cfg resp shop st w =
  (inr (Session.new
          (shop ++ "_"
           ++ ToString
                (member (prop (RequestReturn.body resp) "associated_user")
                        "id"))
          shop st true
          (prop (RequestReturn.body resp) "access_token")
          (prop (RequestReturn.body resp) "scope")
          (Some (expiration w (RequestReturn.body resp)))
          (Some (rest_without ["access_token"; "scope"]
                   (RequestReturn.body resp)))),
   logged (creation_entry shop true) w).
Proof.
  intros B E V. unfold createSession. rewrite B, E.
  unfold bind, log, Date_now, getJwtSessionId, bind.
  rewrite sanitizeShop_valid by exact V.
  rewrite prop_rest_without by reflexivity.
  reflexivity.
Qed.

Lemma createSession_random (cfg : Config) (resp : RequestReturn.t)
    (shop st : string) (w : World) :
  Boolean (prop (RequestReturn.body resp) "associated_user") = true ->
  isEmbeddedApp cfg = false ->
  createSession cfg resp shop st w =
  (inr (Session.new (rng w (drawn w)) shop st true
          (prop (RequestReturn.body resp) "access_token")
          (prop (RequestReturn.body resp) "scope")
          (Some (expiration w (RequestReturn.body resp)))
          (Some (rest_without ["access_token"; "scope"]
                   (RequestReturn.body resp)))),
   drew (logged (creation_entry shop true) w)).
Proof.
  intros B E. unfold createSession. rewrite B, E. reflexivity.
Qed.

(** ** The course of [callback] *)

Lemma after_notice_frame (params : CallbackParams.t) (w : World) :
  now (after_notice params w) = now w /\
  rng (after_notice params w) = rng w /\
  drawn (after_notice params w) = drawn w /\
  server (after_notice params w) = server w /\
  sent (after_notice params w) = sent w.
Proof.
  unfold after_notice. destruct (CallbackParams.isOnline params);
    repeat split; reflexivity.
Qed.

Lemma callback_ok_inv (cfg : Config) (params : CallbackParams.t)
    (w w' : World) (r : CallbackResponse.t) :
  callback cfg params w = (inr r, w') ->
  exists st shop resp,
    isPrivateApp cfg = false /\
    state_cookie cfg (CallbackParams.adapterArgs params) = Some st /\
    st <> "" /\
    validQuery cfg (Object_fromEntries (query_of cfg params)) st = true /\
    searchParams_get (query_of cfg params) "shop" = Some shop /\
    validShop cfg shop = true /\
    server w (sent w)
      (token_request cfg shop
         (searchParams_get (query_of cfg params) "code")) = inr resp /\
    createSession cfg resp shop st (at_session cfg params shop w)
    = (inr (CallbackResponse.session r), w') /\
    CallbackResponse.headers r
    = callback_headers cfg (CallbackResponse.session r).
Proof.
  unfold callback. intros H.
  apply bind_ok_inv in H. destruct H as [[] [w1 [Hp H]]].
  unfold throwIfPrivateApp in Hp.
  destruct (isPrivateApp cfg) eqn:P; [discriminate | ].
  injection Hp as <-.
  apply bind_ok_inv in H. destruct H as [[] [w2 [Hd H]]].
  assert (w2 = after_notice params w) as ->.
  { unfold after_notice. destruct (CallbackParams.isOnline params).
    - injection Hd as <-. reflexivity.
    - injection Hd as <-. reflexivity. }
  clear Hd.
  cbv zeta in H. unfold abstractConvertRequest in H.
  apply bind_ok_inv in H. destruct H as [[] [w3 [Hl H]]].
  injection Hl as <-.
  fold (base_url cfg) in H. fold (query_of cfg params) in H.
  fold (at_cookie_check cfg params w) in H.
  fold (state_cookie cfg (CallbackParams.adapterArgs params)) in H.
  destruct (state_cookie cfg (CallbackParams.adapterArgs params))
    as [st | ] eqn:C; cbn [truthy_string negb] in H.
  2: { unfold bind, log, throw in H. discriminate. }
  destruct (String.eqb st "") eqn:E; cbn [negb] in H.
  { unfold bind, log, throw in H. discriminate. }
  destruct (validQuery cfg (Object_fromEntries (query_of cfg params)) st)
    eqn:V; cbn [negb] in H.
  2: { unfold bind, log, throw in H. discriminate. }
  apply bind_ok_inv in H. destruct H as [[] [w4 [Hl H]]].
  injection Hl as <-.
  apply bind_ok_inv in H. destruct H as [shop [w5 [Hs H]]].
  apply sanitizeShop_ok in Hs. destruct Hs as [Hshop [Hvalid ->]].
  apply bind_ok_inv in H. destruct H as [resp [w6 [Hpost H]]].
  unfold post in Hpost. cbn [HttpClient.domain] in Hpost.
  fold (token_request cfg shop
          (searchParams_get (query_of cfg params) "code")) in Hpost.
  change (server _ (sent _)) with
    (server (after_notice params w) (sent (after_notice params w)))
    in Hpost.
  destruct (after_notice_frame params w) as [_ [_ [_ [Fsrv Fsent]]]].
  rewrite Fsrv, Fsent in Hpost.
  destruct (server w (sent w)
              (token_request cfg shop
                 (searchParams_get (query_of cfg params) "code")))
    as [msg | resp'] eqn:S; [discriminate | ].
  injection Hpost as -> <-.
  apply bind_ok_inv in H. destruct H as [s [w7 [Hc H]]].
  apply bind_ok_inv in H. destruct H as [jar [w8 [Hj H]]].
  unfold ret in H. injection H as <- <-.
  exists st, shop, resp. repeat split; try assumption.
  - apply String.eqb_neq. exact E.
  - cbn [CallbackResponse.session].
    assert (w8 = w7) as ->.
    { destruct (isEmbeddedApp cfg); cbn in Hj; injection Hj as _ <-;
        reflexivity. }
    unfold at_session, posted, at_cookie_check, logged.
    cbn [now rng drawn server sent logs]. rewrite Fsrv, Fsent.
    exact Hc.
  - cbn [CallbackResponse.session CallbackResponse.headers].
    unfold callback_headers, abstractConvertHeaders.
    destruct (isEmbeddedApp cfg); cbn in Hj; injection Hj as <- _;
      reflexivity.
Qed.

Ltac callback_prefix P :=
  unfold callback;
  rewrite (bind_inr _ _ _ _ tt)
    by (unfold throwIfPrivateApp; rewrite P; reflexivity);
  match goal with
  | |- context [CallbackParams.isOnline ?p] =>
      match goal with
      | |- bind _ _ ?w = _ =>
          rewrite (bind_inr _ _ w (after_notice p w) tt)
            by (unfold after_notice; destruct (CallbackParams.isOnline p);
                reflexivity)
      end
  end;
  cbv zeta; unfold abstractConvertRequest;
  rewrite (bind_inr _ _ _ _ tt) by reflexivity;
  match goal with
  | |- context [Cookies.getAndVerify (Cookies.new ?a [apiSecretKey ?c] true) _] =>
      fold (state_cookie c a)
  end.

Lemma callback_private (cfg : Config) (params : CallbackParams.t)
    (w : World) :
  isPrivateApp cfg = true ->
  callback cfg params w
  = (inl (PrivateAppError "Cannot perform OAuth for private apps"), w).
Proof.
  intros P. unfold callback, bind, throwIfPrivateApp. rewrite P.
  reflexivity.
Qed.

Lemma callback_no_cookie (cfg : Config) (params : CallbackParams.t)
    (w : World) :
  isPrivateApp cfg = false ->
  truthy_string (state_cookie cfg (CallbackParams.adapterArgs params))
  = false ->
  callback cfg params w
  = (inl (cookie_missing_error cfg params),
     logged (cookie_missing_entry cfg params)
            (at_cookie_check cfg params w)).
Proof.
  intros P C. callback_prefix P. rewrite C. reflexivity.
Qed.

Lemma callback_invalid (cfg : Config) (params : CallbackParams.t)
    (w : World) (st : string) :
  isPrivateApp cfg = false ->
  state_cookie cfg (CallbackParams.adapterArgs params) = Some st ->
  st <> "" ->
  validQuery cfg (Object_fromEntries (query_of cfg params)) st = false ->
  callback cfg params w
  = (inl (InvalidOAuthError "Invalid OAuth callback."),
     logged (invalid_callback_entry cfg params st)
            (at_cookie_check cfg params w)).
Proof.
  intros P C E V. callback_prefix P. rewrite C.
  apply String.eqb_neq in E. cbn [truthy_string]. rewrite E.
  cbn [negb]. fold (base_url cfg). fold (query_of cfg params).
  rewrite V. reflexivity.
Qed.

(** Past its checks, [callback] is the exchange with the token endpoint
    followed by the creation of the session. *)
Lemma callback_valid (cfg : Config) (params : CallbackParams.t)
    (w : World) (st : string) :
  isPrivateApp cfg = false ->
  state_cookie cfg (CallbackParams.adapterArgs params) = Some st ->
  st <> "" ->
  validQuery cfg (Object_fromEntries (query_of cfg params)) st = true ->
  callback cfg params w
  = (cleanShop <- sanitizeShop cfg
                    (searchParams_get (query_of cfg params) "shop") ;;
     postResponse <- post (HttpClient.new cleanShop)
                       "/admin/oauth/access_token" DataType_JSON
                       (DataObject
                          [("client_id", JsString (apiKey cfg));
                           ("client_secret", JsString (apiSecretKey cfg));
                           ("code",
                            nullable_value
                              (searchParams_get (query_of cfg params)
                                                "code"))])
                       None None None ;;
     session <- createSession cfg postResponse cleanShop st ;;
     cookies <-
       (if negb (isEmbeddedApp cfg) then
          Cookies.setAndSign
            (Cookies.deleteCookie
               (Cookies.new (CallbackParams.adapterArgs params)
                            [apiSecretKey cfg] true)
               STATE_COOKIE_NAME)
            SESSION_COOKIE_NAME (Session.id session)
            (Session.expires session) (Some "lax") (Some true) None
        else
          ret (Cookies.deleteCookie
                 (Cookies.new (CallbackParams.adapterArgs params)
                              [apiSecretKey cfg] true)
                 STATE_COOKIE_NAME)) ;;
     ret (CallbackResponse.mk
            (abstractConvertHeaders (Cookies.outgoing cookies)) session))
      (logged (LogDebug "OAuth request is valid, requesting access token"
                 [("shop",
                   nullable_value
                     (searchParams_get (query_of cfg params) "shop"))])
              (at_cookie_check cfg params w)).
Proof.
  intros P C E V. callback_prefix P. rewrite C.
  apply String.eqb_neq in E. cbn [truthy_string]. rewrite E.
  cbn [negb]. fold (base_url cfg). fold (query_of cfg params).
  rewrite V. reflexivity.
Qed.

Lemma bind_err_inv {A B : Type} (m : M A) (f : A -> M B) (w w2 : World)
    (e : ShopifyError) :
  bind m f w = (inl e, w2) ->
  m w = (inl e, w2) \/ exists a w1, m w = (inr a, w1) /\ f a w1 = (inl e, w2).
Proof.
  unfold bind. destruct (m w) as [[e1 | a] w1]; intros H.
  - left. injection H as -> ->. reflexivity.
  - right. exists a, w1. split; [reflexivity | exact H].
Qed.

Lemma createSession_err (cfg : Config) (resp : RequestReturn.t)
    (shop st : string) (w w' : World) (e : ShopifyError) :
  createSession cfg resp shop st w = (inl e, w') ->
  exists m, e = InvalidShopError m.
Proof.
  unfold createSession, getOfflineId, getJwtSessionId, sanitizeShop, uuidv4,
    random, Date_now, log, bind, ret, throw.
  destruct (Boolean _); [destruct (isEmbeddedApp cfg) | ];
    try destruct (validShop cfg shop); intros H; try discriminate;
    injection H as <- _; eexists; reflexivity.
Qed.

(** [callback] raises [CookieNotFound] at the cookie check only. *)
Lemma callback_CookieNotFound_inv (cfg : Config) (params : CallbackParams.t)
    (w w' : World) (m : string) :
  callback cfg params w = (inl (CookieNotFound m), w') ->
  isPrivateApp cfg = false /\
  truthy_string (state_cookie cfg (CallbackParams.adapterArgs params))
  = false.
Proof.
  intros H. destruct (isPrivateApp cfg) eqn:P.
  { rewrite callback_private in H by exact P. discriminate. }
  split; [reflexivity | ].
  destruct (truthy_string
              (state_cookie cfg (CallbackParams.adapterArgs params))) eqn:T;
    [ | reflexivity].
  exfalso.
  destruct (state_cookie cfg (CallbackParams.adapterArgs params))
    as [st | ] eqn:C; [ | discriminate].
  cbn [truthy_string] in T. apply negb_true_iff in T.
  apply String.eqb_neq in T.
  destruct (validQuery cfg (Object_fromEntries (query_of cfg params)) st)
    eqn:V.
  2: { rewrite (callback_invalid cfg params w st) in H by assumption.
       discriminate. }
  rewrite (callback_valid cfg params w st) in H by assumption.
  apply bind_err_inv in H. destruct H as [H | [shop [w2 [_ H]]]].
  { unfold sanitizeShop, throw, ret in H.
    destruct (searchParams_get _ _) as [s0 | ];
      [destruct (validShop cfg s0) | ]; discriminate. }
  apply bind_err_inv in H. destruct H as [H | [resp [w3 [_ H]]]].
  { unfold post in H. destruct (server _ _ _); discriminate. }
  apply bind_err_inv in H. destruct H as [H | [s0 [w4 [_ H]]]].
  { apply createSession_err in H. destruct H as [m' H]. discriminate. }
  apply bind_err_inv in H. destruct H as [H | [jar [w5 [_ H]]]].
  { destruct (isEmbeddedApp cfg); discriminate. }
  discriminate.
Qed.

(** Everything [createSession] puts into a session it returns. *)
Lemma createSession_ok_inv (cfg : Config) (resp : RequestReturn.t)
    (shop st : string) (w w' : World) (s : Session.t) :
  validShop cfg shop = true ->
  createSession cfg resp shop st w = (inr s, w') ->
  let body := RequestReturn.body resp in
  Session.isOnline s = Boolean (prop body "associated_user") /\
  Session.shop s = shop /\ Session.state s = st /\
  Session.accessToken s = prop body "access_token" /\
  Session.scope s = prop body "scope" /\
  (Session.isOnline s = false ->
   Session.id s = "offline_" ++ shop /\
   Session.expires s = None /\ Session.onlineAccessInfo s = None /\
   drawn w' = drawn w) /\
  (Session.isOnline s = true ->
   Session.expires s = Some (expiration w body) /\
   Session.onlineAccessInfo s
   = Some (rest_without ["access_token"; "scope"] body) /\
   (isEmbeddedApp cfg = true ->
    Session.id s
    = shop ++ "_" ++ ToString (member (prop body "associated_user") "id") /\
    drawn w' = drawn w) /\
   (isEmbeddedApp cfg = false ->
    Session.id s = rng w (drawn w) /\ drawn w' = S (drawn w))) /\
  rng w' = rng w /\ now w' = now w /\ server w' = server w /\
  sent w' = sent w.
Proof.
  intros V H body. subst body.
  destruct (Boolean (prop (RequestReturn.body resp) "associated_user"))
    eqn:B.
  - destruct (isEmbeddedApp cfg) eqn:Em.
    + rewrite createSession_embedded in H by assumption.
      injection H as <- <-. cbn. repeat split; try reflexivity;
        intros; try discriminate; reflexivity.
    + rewrite createSession_random in H by assumption.
      injection H as <- <-. cbn. repeat split; try reflexivity;
        intros; try discriminate; reflexivity.
  - rewrite createSession_offline in H by assumption.
    injection H as <- <-. cbn. repeat split; try reflexivity;
      intros; try discriminate; reflexivity.
Qed.

Lemma at_session_frame (cfg : Config) (params : CallbackParams.t)
    (shop : string) (w : World) :
  now (at_session cfg params shop w) = now w /\
  rng (at_session cfg params shop w) = rng w /\
  drawn (at_session cfg params shop w) = drawn w /\
  server (at_session cfg params shop w) = server w /\
  sent (at_session cfg params shop w)
  = (sent w
     ++ [token_request cfg shop
           (searchParams_get (query_of cfg params) "code")])%list.
Proof.
  destruct (after_notice_frame params w) as [F1 [F2 [F3 [F4 F5]]]].
  unfold at_session, posted, at_cookie_check, logged.
  cbn [now rng drawn server sent]. rewrite F1, F2, F3, F4, F5.
  repeat split; reflexivity.
Qed.

(** In a well-formed token-exchange result a present [associated_user]
    is truthy, and comes with a numeric [expires_in]. *)
Lemma TokenExchangeResult_user (body : JsDict) :
  TokenExchangeResult body = true ->
  Boolean (prop body "associated_user") = has_key body "associated_user" /\
  (has_key body "associated_user" = true ->
   exists e, prop body "expires_in" = JsNumber e).
Proof.
  unfold TokenExchangeResult, prop, has_key.
  destruct (assoc "access_token" body) as [[ | | | | t | | ] | ];
    try discriminate.
  destruct (assoc "scope" body) as [[ | | | | sc | | ] | ];
    try discriminate.
  destruct (assoc "associated_user" body) as [[ | | | | | | u] | ];
    try discriminate.
  - destruct (assoc "expires_in" body) as [[ | | | e | | | ] | ];
      try discriminate.
    intros _. split; [reflexivity | ]. intros _. exists e. reflexivity.
  - intros _. split; [reflexivity | discriminate].
Qed.

Lemma begin_ok_inv (cfg : Config) (params : BeginParams.t) (w w' : World)
    (resp : NormalizedResponse.t) :
  begin cfg params w = (inr resp, w') ->
  isPrivateApp cfg = false /\
  validShop cfg (BeginParams.shop params) = true /\
  resp
  = NormalizedResponse.mk 302 "Found"
      (Headers.mk
         [CookieData.mk STATE_COOKIE_NAME (rng w (drawn w))
            (Some (createSHA256HMAC (apiSecretKey cfg) (rng w (drawn w))))
            (Some (new_Date (Num (now w + 60000))))
            (Some "lax") (Some true)
            (Some (BeginParams.callbackPath params))]
         (Some
            ("https://" ++ BeginParams.shop params
             ++ "/admin/oauth/authorize"
             ++ ProcessedQuery_stringify
                  [("client_id", apiKey cfg);
                   ("scope", scopes cfg);
                   ("redirect_uri",
                    hostScheme cfg ++ "://" ++ hostName cfg
                    ++ BeginParams.callbackPath params);
                   ("state", rng w (drawn w));
                   ("grant_options[]",
                    if BeginParams.isOnline params then "per-user"
                    else "")]))) /\
  drawn w' = S (drawn w) /\ sent w' = sent w.
Proof.
  unfold begin, throwIfPrivateApp, sanitizeShop.
  destruct (isPrivateApp cfg); [unfold bind, throw; discriminate | ].
  destruct (validShop cfg (BeginParams.shop params)).
  - unfold bind, ret, log, nonce, random, Date_now, Cookies.setAndSign,
      abstractConvertResponse, abstractConvertRequest.
    cbn [Cookies.new Cookies.keys Cookies.secure Cookies.received
         Cookies.outgoing
         now rng drawn server sent logs app].
    intros H. injection H as <- <-. repeat split; reflexivity.
  - unfold bind, ret, throw, log. discriminate.
Qed.

(** ** The claims on the OAuth flow *)

(** C1: whenever [callback] has retrieved the state cookie (so the
    application is not a private app and the verified cookie value is
    not empty) but the HMAC verification of the query fails or the
    comparison of the query's [state] with the cookie value fails,
    [callback] raises [InvalidOAuthError] with the message
    "Invalid OAuth callback." (the specification's InvalidOAuthCallback).
    No session is built or returned: the outcome is the error, no
    request was sent, no random value drawn, and the only log entries
    added are the deprecation notice, "Completing OAuth" and
    "Invalid OAuth callback". *)
Theorem callback_invalid_query_raises (cfg : Config)
    (params : CallbackParams.t) (w : World) (st : string) :
  isPrivateApp cfg = false ->
  state_cookie cfg (CallbackParams.adapterArgs params) = Some st ->
  st <> "" ->
  validateHmac cfg (Object_fromEntries (query_of cfg params)) = false
  \/ safeCompare (assoc "state" (Object_fromEntries (query_of cfg params)))
                 st = false ->
  exists w',
    callback cfg params w
    = (inl (InvalidOAuthError "Invalid OAuth callback."), w') /\
    sent w' = sent w /\ drawn w' = drawn w /\
    logs w'
    = (logs w ++ deprecation_notice params
       ++ [LogInfo "Completing OAuth"
             [("shop",
               nullable_value
                 (searchParams_get (query_of cfg params) "shop"))];
           invalid_callback_entry cfg params st])%list.
Proof.
  intros P C E V.
  assert (validQuery cfg (Object_fromEntries (query_of cfg params)) st
          = false) as Q.
  { unfold validQuery. destruct V as [V | V]; rewrite V.
    - reflexivity.
    - apply andb_false_r. }
  eexists. split; [apply callback_invalid; eassumption | ].
  unfold at_cookie_check, after_notice, deprecation_notice, logged.
  destruct (CallbackParams.isOnline params); cbn [sent drawn logs];
    repeat split; try reflexivity.
  - rewrite <- !app_assoc. reflexivity.
  - rewrite <- !app_assoc. reflexivity.
Qed.

(** C2, as amended: under a configuration that is not a private app,
    [callback] raises [CookieNotFound] exactly when the signed state
    cookie is absent, empty or fails MAC verification, and it does so
    before the query is validated, a token requested or a session
    built: only log entries are added to the world.  Every successful
    [callback] marks the state cookie for deletion in the headers it
    returns.  Whether the cookie is accepted depends on the request and
    the configured secret alone, not on earlier invocations. *)
Theorem callback_cookie_check (cfg : Config) (params : CallbackParams.t) :
  isPrivateApp cfg = false ->
  (forall w,
      truthy_string (state_cookie cfg (CallbackParams.adapterArgs params))
      = false ->
      callback cfg params w
      = (inl (cookie_missing_error cfg params),
         logged (cookie_missing_entry cfg params)
                (at_cookie_check cfg params w))) /\
  (forall w w' m,
      callback cfg params w = (inl (CookieNotFound m), w') ->
      truthy_string (state_cookie cfg (CallbackParams.adapterArgs params))
      = false) /\
  (forall w w' r,
      callback cfg params w = (inr r, w') ->
      In (deleted_cookie STATE_COOKIE_NAME)
         (Headers.SetCookie (CallbackResponse.headers r))).
Proof.
  intros P. split; [ | split].
  - intros w C. apply callback_no_cookie; assumption.
  - intros w w' m H. apply callback_CookieNotFound_inv in H. apply H.
  - intros w w' r H. apply callback_ok_inv in H.
    destruct H as [st [shop [resp [_ [_ [_ [_ [_ [_ [_ [_ Hh]]]]]]]]]]].
    rewrite Hh. cbn. left. reflexivity.
Qed.


(** C3: the access mode of the session [callback] returns is the
    truthiness of [associated_user] in the body of the token-exchange
    response, which for a well-formed response is the presence of that
    field.  The [isOnline] parameter plays no part: its value is never
    read, and supplying it only puts the deprecation notice into the
    log before the rest runs as it would without it. *)
Theorem access_mode_from_token_response (cfg : Config)
    (request : NormalizedRequest.t) :
  (forall isOnlineParam w r w',
      callback cfg (CallbackParams.mk isOnlineParam request) w = (inr r, w') ->
      exists shop resp,
        server w (sent w)
          (token_request cfg shop
             (searchParams_get
                (query_of cfg (CallbackParams.mk isOnlineParam request))
                "code"))
        = inr resp /\
        Session.isOnline (CallbackResponse.session r)
        = Boolean (prop (RequestReturn.body resp) "associated_user") /\
        (TokenExchangeResult (RequestReturn.body resp) = true ->
         Session.isOnline (CallbackResponse.session r)
         = has_key (RequestReturn.body resp) "associated_user")) /\
  (forall b b' w,
      callback cfg (CallbackParams.mk (Some b) request) w
      = callback cfg (CallbackParams.mk (Some b') request) w) /\
  (forall b w,
      isPrivateApp cfg = false ->
      callback cfg (CallbackParams.mk (Some b) request) w
      = callback cfg (CallbackParams.mk None request)
          (logged
             (LogDeprecated "7.0.0"
                "The isOnline param is no longer required for auth callback")
             w)).
Proof.
  split; [ | split].
  - intros o w r w' H. apply callback_ok_inv in H.
    destruct H as [st [shop [resp [_ [_ [_ [_ [_ [V [S [H _]]]]]]]]]]].
    apply createSession_ok_inv in H; [ | exact V].
    destruct H as [Hon _].
    exists shop, resp. split; [exact S | ]. split; [exact Hon | ].
    intros T. apply TokenExchangeResult_user in T. destruct T as [T _].
    rewrite Hon. exact T.
  - intros b b' w. reflexivity.
  - intros b w P. unfold callback, throwIfPrivateApp. rewrite P.
    reflexivity.
Qed.

(** C4, as amended: every session returned by [callback] is online
    exactly when it has [onlineAccessInfo], exactly when it has
    [expires]; an offline session has neither.  The [expires] of an
    online session is the date built from the clock at creation plus
    1000 times the [expires_in] of the token-exchange response: for a
    numeric [expires_in] that is the time of creation plus [expires_in]
    seconds when this instant lies within the range of a [Date], and
    the Invalid Date when it lies beyond. *)
Theorem session_invariant (cfg : Config) (params : CallbackParams.t)
    (w w' : World) (r : CallbackResponse.t) :
  callback cfg params w = (inr r, w') ->
  let s := CallbackResponse.session r in
  (Session.isOnline s = true <-> Session.onlineAccessInfo s <> None) /\
  (Session.onlineAccessInfo s <> None <-> Session.expires s <> None) /\
  (Session.isOnline s = false ->
   Session.onlineAccessInfo s = None /\ Session.expires s = None) /\
  (Session.isOnline s = true ->
   exists shop resp,
     server w (sent w)
       (token_request cfg shop
          (searchParams_get (query_of cfg params) "code")) = inr resp /\
     Session.expires s = Some (expiration w (RequestReturn.body resp)) /\
     forall e,
       prop (RequestReturn.body resp) "expires_in" = JsNumber e ->
       Session.expires s = Some (new_Date (Num (now w + e * 1000))) /\
       ((Z.abs (now w + e * 1000) <=? max_time) = true ->
        Session.expires s = Some (Date_of (Num (now w + e * 1000)))) /\
       ((Z.abs (now w + e * 1000) <=? max_time) = false ->
        Session.expires s = Some (Date_of NaN))).
Proof.
  intros H s. subst s. apply callback_ok_inv in H.
  destruct H as [st [shop [resp [_ [_ [_ [_ [_ [V [S [H _]]]]]]]]]]].
  apply createSession_ok_inv in H; [ | exact V].
  destruct H as [_ [_ [_ [_ [_ [Hoff [Hon _]]]]]]].
  destruct (at_session_frame cfg params shop w) as [Fnow _].
  destruct (Session.isOnline (CallbackResponse.session r)) eqn:O.
  - destruct (Hon eq_refl) as [He [Hi _]]. rewrite He, Hi.
    repeat split; intros; try discriminate; try reflexivity.
    exists shop, resp. split; [exact S | ].
    unfold expiration. rewrite Fnow. split; [reflexivity | ].
    intros e Hx. rewrite Hx.
    cbn [ToNumber number_mul number_add]. unfold new_Date, TimeClip.
    split; [reflexivity | ].
    split; intros R; rewrite R; reflexivity.
  - destruct (Hoff eq_refl) as [_ [He [Hi _]]]. rewrite He, Hi.
    repeat split; intros; try discriminate; try reflexivity;
      exfalso; auto.
Qed.


(** C6: under a private-app configuration [begin] and [callback] raise
    [PrivateAppError] at once and leave the world as it was: nothing is
    logged, no random value is drawn for a cookie, no request is sent,
    and no response or session comes back. *)
Theorem private_app_rejected (cfg : Config) :
  isPrivateApp cfg = true ->
  (forall params w,
      begin cfg params w
      = (inl (PrivateAppError "Cannot perform OAuth for private apps"), w)) /\
  (forall params w,
      callback cfg params w
      = (inl (PrivateAppError "Cannot perform OAuth for private apps"), w)).
Proof.
  intros P. split.
  - intros params w. unfold begin, bind, throwIfPrivateApp. rewrite P.
    reflexivity.
  - intros params w. apply callback_private. exact P.
Qed.

(** C7: the response of a successful [begin] has status 302; its
    [Location] is [https://<shop>/admin/oauth/authorize?] followed by
    the parameters [client_id], [scope], [redirect_uri], [state] and
    [grant_options[]] in this order, each serialised as [key=value] and
    joined by [&], where [grant_options[]] is [per-user] when
    [isOnline] holds and empty otherwise and [redirect_uri] is
    [<hostScheme>://<hostName><callbackPath>]; and its only cookie is
    the state cookie, whose value, signed with the API secret, is the
    nonce that is the [state] parameter. *)
Theorem begin_redirects (cfg : Config) (params : BeginParams.t)
    (w w' : World) (resp : NormalizedResponse.t) :
  begin cfg params w = (inr resp, w') ->
  let state := rng w (drawn w) in
  let pair := fun k v => urlencode k ++ "=" ++ urlencode v in
  NormalizedResponse.statusCode resp = 302 /\
  Headers.Location (NormalizedResponse.headers resp)
  = Some
      ("https://" ++ BeginParams.shop params ++ "/admin/oauth/authorize?"
       ++ join "&"
            [pair "client_id" (apiKey cfg);
             pair "scope" (scopes cfg);
             pair "redirect_uri"
                  (hostScheme cfg ++ "://" ++ hostName cfg
                   ++ BeginParams.callbackPath params);
             pair "state" state;
             pair "grant_options[]"
                  (if BeginParams.isOnline params then "per-user" else "")]) /\
  Headers.SetCookie (NormalizedResponse.headers resp)
  = [CookieData.mk STATE_COOKIE_NAME state
       (Some (createSHA256HMAC (apiSecretKey cfg) state))
       (Some (new_Date (Num (now w + 60000))))
       (Some "lax") (Some true) (Some (BeginParams.callbackPath params))].
Proof.
  intros H state pair. apply begin_ok_inv in H.
  destruct H as [_ [_ [-> _]]]. repeat split; reflexivity.
Qed.

(** C8: the cookies in the headers of a successful [callback] are the
    deletion of the state cookie, followed, exactly when the
    application is not embedded, by one signed cookie: the session
    cookie, same-site and secure, signed with the API secret, whose
    value is the id of the returned session.  For an embedded
    application the headers hold no signed cookie at all. *)
Theorem session_cookie_iff_not_embedded (cfg : Config)
    (params : CallbackParams.t) (w w' : World) (r : CallbackResponse.t) :
  callback cfg params w = (inr r, w') ->
  let cookies := Headers.SetCookie (CallbackResponse.headers r) in
  let s := CallbackResponse.session r in
  cookies
  = deleted_cookie STATE_COOKIE_NAME
    :: (if isEmbeddedApp cfg then []
        else [CookieData.mk SESSION_COOKIE_NAME (Session.id s)
                (Some (createSHA256HMAC (apiSecretKey cfg) (Session.id s)))
                (Session.expires s) (Some "lax") (Some true) None]) /\
  ((exists c, In c cookies /\ CookieData.signature c <> None)
   <-> isEmbeddedApp cfg = false) /\
  (forall c,
      In c cookies -> CookieData.signature c <> None ->
      CookieData.name c = SESSION_COOKIE_NAME /\
      CookieData.value c = Session.id s /\
      CookieData.signature c
      = Some (createSHA256HMAC (apiSecretKey cfg) (Session.id s))).
Proof.
  intros H cookies s. subst cookies s. apply callback_ok_inv in H.
  destruct H as [st [shop [resp [_ [_ [_ [_ [_ [_ [_ [_ Hh]]]]]]]]]]].
  rewrite Hh. unfold callback_headers, session_cookie.
  cbn [Headers.SetCookie].
  split; [reflexivity | ].
  destruct (isEmbeddedApp cfg); split.
  - split; [ | discriminate].
    intros [c [[<- | []] Hn]]. cbn in Hn. congruence.
  - intros c [<- | []] Hn. cbn in Hn. congruence.
  - split; [reflexivity | ]. intros _.
    eexists. split; [right; left; reflexivity | cbn; discriminate].
  - intros c [<- | [<- | []]] Hn.
    + cbn in Hn. congruence.
    + repeat split; reflexivity.
Qed.

End Flow.

(** ** The claims on the GraphQL client *)

Section Graphql.
Context {RT : Runtime}.

Lemma assoc_assign_other {A : Type} (k k' : string) (v : A)
    (l : list (string * A)) :
  String.eqb k k' = false -> assoc k (assign k' v l) = assoc k l.
Proof.
  intros N. induction l as [ | [k0 v0] l IH]; cbn [assign assoc].
  - rewrite N. reflexivity.
  - destruct (String.eqb k' k0) eqn:E; cbn [assoc].
    + apply String.eqb_eq in E. subst k0. rewrite N. reflexivity.
    + rewrite IH. reflexivity.
Qed.

(** Spreading [b] over [a] leaves the properties [b] does not have. *)
Lemma assoc_spread_absent {A : Type} (k : string) (a b : list (string * A)) :
  assoc k b = None -> assoc k (spread a b) = assoc k a.
Proof.
  unfold spread. revert a.
  induction b as [ | [k' v'] b IH]; intros a H; [reflexivity | ].
  cbn [assoc] in H. destruct (String.eqb k k') eqn:E; [discriminate | ].
  cbn [fold_left fst snd]. rewrite IH by exact H.
  apply assoc_assign_other. exact E.
Qed.

Lemma assoc_app {A : Type} (k : string) (l1 l2 : list (string * A)) :
  assoc k (l1 ++ l2)
  = match assoc k l1 with
    | Some v => Some v
    | None => assoc k l2
    end.
Proof.
  induction l1 as [ | [k' v'] l1 IH]; [reflexivity | ].
  cbn [app assoc]. destruct (String.eqb k k'); [reflexivity | exact IH].
Qed.

Lemma assoc_assign {A : Type} (k k' : string) (v : A)
    (l : list (string * A)) :
  assoc k (assign k' v l)
  = if String.eqb k k' then Some v else assoc k l.
Proof.
  induction l as [ | [k0 v0] l IH]; cbn [assign assoc].
  - reflexivity.
  - destruct (String.eqb k' k0) eqn:E; cbn [assoc].
    + apply String.eqb_eq in E. subst k0.
      destruct (String.eqb k k'); reflexivity.
    + rewrite IH. destruct (String.eqb k k') eqn:E'; [ | reflexivity].
      apply String.eqb_eq in E'. subst k'. rewrite E. reflexivity.
Qed.

(** In a spread, and in an object built from entries, the last entry
    under a key is the one that counts. *)
Lemma assoc_spread {A : Type} (k : string) (a b : list (string * A)) :
  assoc k (spread a b)
  = match assoc k (rev b) with
    | Some v => Some v
    | None => assoc k a
    end.
Proof.
  unfold spread. revert a.
  induction b as [ | [k' v'] b IH]; intros a; [reflexivity | ].
  cbn [fold_left fst snd rev]. rewrite IH, assoc_app, assoc_assign.
  destruct (assoc k (rev b)); [reflexivity | ].
  cbn [assoc]. destruct (String.eqb k k'); reflexivity.
Qed.

Lemma assoc_fromEntries {A : Type} (k : string) (q : list (string * A)) :
  assoc k (Object_fromEntries q) = assoc k (rev q).
Proof.
  unfold Object_fromEntries. rewrite assoc_spread.
  destruct (assoc k (rev q)); reflexivity.
Qed.

Lemma query_run (client : GraphqlClient.t) (params : GraphqlParams.t)
    (w : World) :
  GraphqlParams.data params <> DataString "" ->
  GraphqlParams.data params <> DataObject [] ->
  GraphqlClient.query client params w
  = match server w (sent w) (graphql_request client params) with
    | inr result =>
        if Boolean (prop (RequestReturn.body result) "errors") then
          (inl (GraphqlQueryError "GraphQL query returned errors"
                  (RequestReturn.body result)),
           posted (graphql_request client params) w)
        else (inr result, posted (graphql_request client params) w)
    | inl message =>
        (inl (HttpRequestError message),
         posted (graphql_request client params) w)
    end.
Proof.
  intros Hs Ho. unfold GraphqlClient.query.
  assert ((match GraphqlParams.data params with
           | DataString s => Nat.eqb (String.length s) 0
           | DataObject _ => false
           end
           || Nat.eqb (Object_entries_length (GraphqlParams.data params)) 0)
          = false) as ->.
  { destruct (GraphqlParams.data params) as [[ | a s0] | [ | kv o]];
      try reflexivity; congruence. }
  unfold bind, post.
  fold (graphql_headers client params).
  change (HttpRequest.mk _ _ _ _ _ _ _) with (graphql_request client params).
  destruct (server w (sent w) (graphql_request client params))
    as [message | result]; [reflexivity | ].
  destruct (Boolean (prop (RequestReturn.body result) "errors"));
    reflexivity.
Qed.

Lemma query_missing (client : GraphqlClient.t) (params : GraphqlParams.t)
    (w : World) :
  GraphqlParams.data params = DataString ""
  \/ GraphqlParams.data params = DataObject [] ->
  GraphqlClient.query client params w
  = (inl (MissingRequiredArgument "Query missing."), w).
Proof.
  intros [H | H]; unfold GraphqlClient.query; rewrite H; reflexivity.
Qed.

(** C9, as amended: building a client under a configuration that is
    not a private app, for a session whose access token is missing (or
    otherwise falsy), raises [MissingRequiredArgument].  Under a
    private-app configuration the client is built whatever the session
    holds, and its access-token header carries the configured API
    secret key, not the session's token.  Its [query] sends nothing for
    missing data and one request otherwise, whose headers are that
    header with the caller's extra headers spread over it: the request
    carries the API secret key as its access token unless the caller
    passes a header of the same name, whose last value then takes its
    place. *)
Theorem graphql_client_access_token (cfg : Config)
    (params : GraphqlClientParams.t) (w : World) :
  (isPrivateApp cfg = false ->
   Boolean (Session.accessToken (GraphqlClientParams.session params))
   = false ->
   GraphqlClient.constructor cfg params w
   = (inl (MissingRequiredArgument
             "Missing access token when creating GraphQL client"), w)) /\
  (isPrivateApp cfg = true ->
   exists client,
     GraphqlClient.constructor cfg params w = (inr client, w) /\
     GraphqlClient.session client = GraphqlClientParams.session params /\
     GraphqlClient.getAccessTokenHeader client
     = AccessTokenHeader.mk ShopifyHeader_AccessToken
         (JsString (apiSecretKey cfg)) /\
     forall q w0,
       (GraphqlParams.data q = DataString ""
        \/ GraphqlParams.data q = DataObject [] ->
        sent (snd (GraphqlClient.query client q w0)) = sent w0) /\
       (GraphqlParams.data q <> DataString "" ->
        GraphqlParams.data q <> DataObject [] ->
        exists request headers,
          sent (snd (GraphqlClient.query client q w0))
          = (sent w0 ++ [request])%list /\
          HttpRequest.extraHeaders request = Some headers /\
          headers
          = spread [(ShopifyHeader_AccessToken, JsString (apiSecretKey cfg))]
                   (or_default [] (GraphqlParams.extraHeaders q)) /\
          assoc ShopifyHeader_AccessToken headers
          = Some
              (match assoc ShopifyHeader_AccessToken
                           (rev (or_default []
                                   (GraphqlParams.extraHeaders q))) with
               | Some v => v
               | None => JsString (apiSecretKey cfg)
               end))).
Proof.
  split.
  - intros P T. unfold GraphqlClient.constructor. rewrite P, T.
    reflexivity.
  - intros P. unfold GraphqlClient.constructor. rewrite P. cbn [negb andb].
    eexists. split; [reflexivity | ]. split; [reflexivity | ].
    split.
    { unfold GraphqlClient.getAccessTokenHeader.
      cbn [GraphqlClient.CONFIG]. rewrite P. reflexivity. }
    intros q w0. split.
    + intros E. rewrite query_missing by exact E. reflexivity.
    + intros Hs Ho. eexists. eexists. split.
      { rewrite query_run by assumption.
        destruct (server w0 (sent w0) _) as [message | result];
          [ | destruct (Boolean _)]; reflexivity. }
      unfold graphql_request, graphql_headers,
        GraphqlClient.getAccessTokenHeader.
      cbn [HttpRequest.extraHeaders GraphqlClient.CONFIG
           AccessTokenHeader.value].
      rewrite P. split; [reflexivity | ].
      split; [unfold or_default;
              destruct (GraphqlParams.extraHeaders q); reflexivity | ].
      rewrite assoc_spread. unfold or_default.
      destruct (GraphqlParams.extraHeaders q) as [extra | ].
      * destruct (assoc ShopifyHeader_AccessToken (rev extra));
          [reflexivity | ].
        cbn [assoc]. rewrite String.eqb_refl. reflexivity.
      * cbn [rev assoc]. rewrite String.eqb_refl. reflexivity.
Qed.

(** C10, as amended: [query] raises [MissingRequiredArgument] for data
    that is the empty string or an object without entries, and sends
    nothing; for other data it sends one request, and when the body of
    the response has an [errors] member that is truthy (anything but
    [undefined], [null], [false], [0] and the empty string) it raises
    [GraphqlQueryError] with that body instead of returning the
    response.  A returned result has no [errors] member in its body, or
    a falsy one. *)
Theorem graphql_query_errors (client : GraphqlClient.t)
    (params : GraphqlParams.t) (w : World) :
  (GraphqlParams.data params = DataString ""
   \/ GraphqlParams.data params = DataObject [] ->
   GraphqlClient.query client params w
   = (inl (MissingRequiredArgument "Query missing."), w)) /\
  (forall resp,
      GraphqlParams.data params <> DataString "" ->
      GraphqlParams.data params <> DataObject [] ->
      server w (sent w) (graphql_request client params) = inr resp ->
      Boolean (prop (RequestReturn.body resp) "errors") = true ->
      GraphqlClient.query client params w
      = (inl (GraphqlQueryError "GraphQL query returned errors"
                (RequestReturn.body resp)),
         posted (graphql_request client params) w)) /\
  (forall result w',
      GraphqlClient.query client params w = (inr result, w') ->
      server w (sent w) (graphql_request client params) = inr result /\
      Boolean (prop (RequestReturn.body result) "errors") = false).
Proof.
  split; [ | split].
  - apply query_missing.
  - intros resp Hs Ho S B. rewrite query_run by assumption.
    rewrite S, B. reflexivity.
  - intros result w' H.
    destruct (GraphqlParams.data params) as [[ | a s0] | [ | kv o]] eqn:D.
    1, 3: rewrite query_missing in H by (rewrite D; auto); discriminate.
    all: rewrite query_run in H by (rewrite D; discriminate);
      destruct (server w (sent w) (graphql_request client params))
        as [message | result0]; [discriminate | ];
      destruct (Boolean (prop (RequestReturn.body result0) "errors")) eqn:B;
      [discriminate | ];
      injection H as <- _; split; [reflexivity | exact B].
Qed.

End Graphql.

(** ** The scenarios of the specification, run on the concrete application *)

Section Scenarios.
Existing Instance Scenario.runtime.

(** Scenario D: a tampered [state] is refused. *)
Lemma callback_invalid_query_raises_witness :
  isPrivateApp (Scenario.config false false) = false /\
  state_cookie (Scenario.config false false)
    (CallbackParams.adapterArgs (Scenario.callback_params "n1" "n2"))
  = Some "n1" /\
  "n1" <> "" /\
  safeCompare
    (assoc "state"
       (Object_fromEntries
          (query_of (Scenario.config false false)
                    (Scenario.callback_params "n1" "n2"))))
    "n1" = false /\
  fst (callback (Scenario.config false false)
         (Scenario.callback_params "n1" "n2")
         (Scenario.world Scenario.offline_answer))
  = inl (InvalidOAuthError "Invalid OAuth callback.").
Proof.
  assert (isPrivateApp (Scenario.config false false) = false) as P
    by reflexivity.
  assert (state_cookie (Scenario.config false false)
            (CallbackParams.adapterArgs (Scenario.callback_params "n1" "n2"))
          = Some "n1") as C by (vm_compute; reflexivity).
  assert ("n1" <> "") as E by discriminate.
  assert (safeCompare
            (assoc "state"
               (Object_fromEntries
                  (query_of (Scenario.config false false)
                            (Scenario.callback_params "n1" "n2"))))
            "n1" = false) as V by (vm_compute; reflexivity).
  refine (conj P (conj C (conj E (conj V _)))).
  destruct (callback_invalid_query_raises
              (Scenario.config false false)
              (Scenario.callback_params "n1" "n2")
              (Scenario.world Scenario.offline_answer) "n1"
              P C E (or_intror V)) as [w' [H _]].
  rewrite H. reflexivity.
Defined.

(** A callback without any state cookie is refused at the cookie check. *)
Lemma callback_cookie_check_witness :
  isPrivateApp (Scenario.config false false) = false /\
  truthy_string
    (state_cookie (Scenario.config false false)
                  (NormalizedRequest.mk "/auth/callback?shop=shop1.myshopify.io" []))
  = false /\
  fst (callback (Scenario.config false false)
         (CallbackParams.mk None
            (NormalizedRequest.mk "/auth/callback?shop=shop1.myshopify.io" []))
         (Scenario.world Scenario.offline_answer))
  = inl (CookieNotFound
           "Cannot complete OAuth process. Could not find an OAuth cookie for shop url: shop1.myshopify.io").
Proof.
  assert (isPrivateApp (Scenario.config false false) = false) as P
    by reflexivity.
  assert (truthy_string
            (state_cookie (Scenario.config false false)
               (NormalizedRequest.mk
                  "/auth/callback?shop=shop1.myshopify.io" []))
          = false) as C by reflexivity.
  refine (conj P (conj C _)).
  destruct (callback_cookie_check (Scenario.config false false)
              (CallbackParams.mk None
                 (NormalizedRequest.mk
                    "/auth/callback?shop=shop1.myshopify.io" []))
              P) as [H _].
  rewrite (H (Scenario.world Scenario.offline_answer) C).
  vm_compute. reflexivity.
Defined.

(** C2, as stated, fails: the same request, carrying the same raw state
    cookie, is served twice in a row, and the second invocation returns
    a session as the first did instead of raising [CookieNotFound]. *)
Lemma replayed_state_cookie_is_accepted :
  fst (callback (Scenario.config false false)
         (Scenario.callback_params "n1" "n1")
         (Scenario.world Scenario.offline_answer))
  = inr (Scenario.response_for false Scenario.offline_session) /\
  fst (callback (Scenario.config false false)
         (Scenario.callback_params "n1" "n1")
         (snd (callback (Scenario.config false false)
                 (Scenario.callback_params "n1" "n1")
                 (Scenario.world Scenario.offline_answer))))
  = inr (Scenario.response_for false Scenario.offline_session).
Proof. split; vm_compute; reflexivity. Qed.

(** Scenario C with a contrary [isOnline]: the response has an
    associated user, so the session is online whatever the parameter. *)
Lemma access_mode_from_token_response_witness :
  callback (Scenario.config true false)
    (CallbackParams.mk (Some false) (Scenario.callback_request "n1" "n1"))
    (Scenario.world Scenario.online_answer)
  = (inr (Scenario.response_for true
            (Scenario.online_session "shop1.myshopify.io_999")),
     snd (callback (Scenario.config true false)
            (CallbackParams.mk (Some false)
               (Scenario.callback_request "n1" "n1"))
            (Scenario.world Scenario.online_answer))) /\
  TokenExchangeResult Scenario.online_answer = true /\
  Session.isOnline
    (CallbackResponse.session
       (Scenario.response_for true
          (Scenario.online_session "shop1.myshopify.io_999")))
  = has_key Scenario.online_answer "associated_user".
Proof.
  assert (callback (Scenario.config true false)
            (CallbackParams.mk (Some false)
               (Scenario.callback_request "n1" "n1"))
            (Scenario.world Scenario.online_answer)
          = (inr (Scenario.response_for true
                    (Scenario.online_session "shop1.myshopify.io_999")),
             snd (callback (Scenario.config true false)
                    (CallbackParams.mk (Some false)
                       (Scenario.callback_request "n1" "n1"))
                    (Scenario.world Scenario.online_answer)))) as H
    by (vm_compute; reflexivity).
  assert (TokenExchangeResult Scenario.online_answer = true) as T
    by reflexivity.
  refine (conj H (conj T _)).
  destruct (access_mode_from_token_response (Scenario.config true false)
              (Scenario.callback_request "n1" "n1")) as [A _].
  destruct (A _ _ _ _ H) as [shop [resp [S [_ B]]]].
  cbn [Scenario.world server] in S. injection S as <-.
  exact (B T).
Defined.

(** Scenario C: the online session expires 3600 seconds after its
    creation. *)
Lemma session_invariant_witness :
  callback (Scenario.config true false) (Scenario.callback_params "n1" "n1")
    (Scenario.world Scenario.online_answer)
  = (inr (Scenario.response_for true
            (Scenario.online_session "shop1.myshopify.io_999")),
     snd (callback (Scenario.config true false)
            (Scenario.callback_params "n1" "n1")
            (Scenario.world Scenario.online_answer))) /\
  (Z.abs (1667433600000 + 3600 * 1000) <=? max_time) = true /\
  Session.expires (Scenario.online_session "shop1.myshopify.io_999")
  = Some (Date_of (Num (1667433600000 + 3600 * 1000))).
Proof.
  assert (callback (Scenario.config true false)
            (Scenario.callback_params "n1" "n1")
            (Scenario.world Scenario.online_answer)
          = (inr (Scenario.response_for true
                    (Scenario.online_session "shop1.myshopify.io_999")),
             snd (callback (Scenario.config true false)
                    (Scenario.callback_params "n1" "n1")
                    (Scenario.world Scenario.online_answer)))) as H
    by (vm_compute; reflexivity).
  assert ((Z.abs (1667433600000 + 3600 * 1000) <=? max_time) = true) as R
    by reflexivity.
  refine (conj H (conj R _)).
  destruct (session_invariant _ _ _ _ _ H) as [_ [_ [_ A]]].
  destruct (A eq_refl) as [shop [resp [S [_ B]]]].
  cbn [Scenario.world server] in S. injection S as <-.
  destruct (B 3600 eq_refl) as [_ [C _]].
  exact (C R).
Defined.

(** C4, as stated, fails: for a token that is to last 10^13 seconds the
    session is online and has an [expires], but that date is the
    Invalid Date and not the time of creation plus [expires_in]
    seconds. *)
Lemma far_future_expiry_is_invalid :
  fst (callback (Scenario.config true false)
         (Scenario.callback_params "n1" "n1")
         (Scenario.world Replay.far_future_answer))
  = inr (Scenario.response_for true Replay.far_future_session) /\
  Session.expires Replay.far_future_session = Some (Date_of NaN) /\
  Session.expires Replay.far_future_session
  <> Some (Date_of (Num (1667433600000 + 10000000000000 * 1000))).
Proof.
  split; [vm_compute; reflexivity | ].
  split; [reflexivity | ]. cbn. discriminate.
Qed.


(** A private app can neither begin nor complete OAuth. *)
Lemma private_app_rejected_witness :
  isPrivateApp (Scenario.config false true) = true /\
  begin (Scenario.config false true) (Scenario.begin_params false)
        (Scenario.world [])
  = (inl (PrivateAppError "Cannot perform OAuth for private apps"),
     Scenario.world []) /\
  callback (Scenario.config false true) (Scenario.callback_params "n1" "n1")
           (Scenario.world [])
  = (inl (PrivateAppError "Cannot perform OAuth for private apps"),
     Scenario.world []).
Proof.
  assert (isPrivateApp (Scenario.config false true) = true) as P
    by reflexivity.
  refine (conj P _).
  destruct (private_app_rejected (Scenario.config false true) P) as [B C].
  exact (conj (B _ _) (C _ _)).
Defined.

(** Scenario A: [begin] for shop1 redirects to its authorization page
    with the nonce of the state cookie. *)
Lemma begin_redirects_witness :
  begin (Scenario.config false false) (Scenario.begin_params false)
        (Scenario.world [])
  = (inr Scenario.begin_response,
     snd (begin (Scenario.config false false) (Scenario.begin_params false)
                (Scenario.world []))) /\
  Headers.Location (NormalizedResponse.headers Scenario.begin_response)
  = Some
      "https://shop1.myshopify.io/admin/oauth/authorize?client_id=test_key&scope=read_products&redirect_uri=https://app.example.io/auth/callback&state=draw-0&grant_options[]=".
Proof.
  assert (begin (Scenario.config false false) (Scenario.begin_params false)
                (Scenario.world [])
          = (inr Scenario.begin_response,
             snd (begin (Scenario.config false false)
                        (Scenario.begin_params false)
                        (Scenario.world [])))) as H
    by (vm_compute; reflexivity).
  refine (conj H _).
  destruct (begin_redirects _ _ _ _ _ H) as [_ [A _]].
  exact A.
Defined.

(** Scenario B: the application is not embedded, and the session
    cookie carries the session id. *)
Lemma session_cookie_iff_not_embedded_witness :
  callback (Scenario.config false false) (Scenario.callback_params "n1" "n1")
    (Scenario.world Scenario.offline_answer)
  = (inr (Scenario.response_for false Scenario.offline_session),
     snd (callback (Scenario.config false false)
            (Scenario.callback_params "n1" "n1")
            (Scenario.world Scenario.offline_answer))) /\
  exists c,
    In c (Headers.SetCookie
            (CallbackResponse.headers
               (Scenario.response_for false Scenario.offline_session))) /\
    CookieData.signature c <> None.
Proof.
  assert (callback (Scenario.config false false)
            (Scenario.callback_params "n1" "n1")
            (Scenario.world Scenario.offline_answer)
          = (inr (Scenario.response_for false Scenario.offline_session),
             snd (callback (Scenario.config false false)
                    (Scenario.callback_params "n1" "n1")
                    (Scenario.world Scenario.offline_answer)))) as H
    by (vm_compute; reflexivity).
  refine (conj H _).
  destruct (session_cookie_iff_not_embedded _ _ _ _ _ H) as [_ [[_ A] _]].
  exact (A eq_refl).
Defined.

(** A private app's client is built for a session without a token and
    sends the API secret key. *)
Lemma graphql_client_access_token_witness :
  isPrivateApp (Scenario.config false true) = true /\
  GraphqlParams.data Scenario.shop_name_query <> DataString "" /\
  GraphqlParams.data Scenario.shop_name_query <> DataObject [] /\
  exists client request headers,
    GraphqlClient.constructor (Scenario.config false true)
      (GraphqlClientParams.mk (Scenario.session_with JsUndefined))
      (Scenario.world [])
    = (inr client, Scenario.world []) /\
    sent (snd (GraphqlClient.query client Scenario.shop_name_query
                 (Scenario.world [])))
    = [request] /\
    HttpRequest.extraHeaders request = Some headers /\
    assoc "X-Shopify-Access-Token" headers
    = Some (JsString "test_secret_key").
Proof.
  assert (isPrivateApp (Scenario.config false true) = true) as P
    by reflexivity.
  assert (GraphqlParams.data Scenario.shop_name_query <> DataString "")
    as Hs by discriminate.
  assert (GraphqlParams.data Scenario.shop_name_query <> DataObject [])
    as Ho by discriminate.
  refine (conj P (conj Hs (conj Ho _))).
  destruct (graphql_client_access_token (Scenario.config false true)
              (GraphqlClientParams.mk (Scenario.session_with JsUndefined))
              (Scenario.world [])) as [_ A].
  destruct (A P) as [client [H1 [_ [_ Q]]]].
  destruct (Q Scenario.shop_name_query (Scenario.world [])) as [_ B].
  destruct (B Hs Ho) as [request [headers [S [E [_ L]]]]].
  exists client, request, headers.
  exact (conj H1 (conj S (conj E L))).
Defined.

(** C9, as stated, fails: the client of a private app is asked a query
    that brings its own access-token header, and the request it sends
    carries the caller's value, not the API secret key. *)
Lemma caller_header_replaces_secret :
  fst (GraphqlClient.constructor (Scenario.config false true)
         (GraphqlClientParams.mk (Scenario.session_with JsUndefined))
         (Scenario.world []))
  = inr (Scenario.graphql_client true JsUndefined) /\
  sent (snd (GraphqlClient.query (Scenario.graphql_client true JsUndefined)
               Replay.overriding_query (Scenario.world [])))
  = [HttpRequest.mk "test-shop.myshopify.io"
       "/admin/api/2022-10/graphql.json" DataType_GraphQL
       (DataString "{ shop { name } }") None
       (Some [("X-Shopify-Access-Token", JsString "caller_token")]) None] /\
  JsString "caller_token"
  <> JsString (apiSecretKey (Scenario.config false true)).
Proof.
  split; [vm_compute; reflexivity | ].
  split; [vm_compute; reflexivity | ]. cbn. discriminate.
Qed.

(** A response whose [errors] is a non-empty array is turned into a
    [GraphqlQueryError]. *)
Lemma graphql_query_errors_witness :
  GraphqlParams.data Scenario.shop_name_query <> DataString "" /\
  GraphqlParams.data Scenario.shop_name_query <> DataObject [] /\
  Boolean (prop [("errors", JsArray [JsString "Throttled"])] "errors")
  = true /\
  fst (GraphqlClient.query (Scenario.graphql_client false (JsString "tok"))
         Scenario.shop_name_query
         (Scenario.world [("errors", JsArray [JsString "Throttled"])]))
  = inl (GraphqlQueryError "GraphQL query returned errors"
           [("errors", JsArray [JsString "Throttled"])]).
Proof.
  assert (GraphqlParams.data Scenario.shop_name_query <> DataString "")
    as Hs by discriminate.
  assert (GraphqlParams.data Scenario.shop_name_query <> DataObject [])
    as Ho by discriminate.
  assert (Boolean (prop [("errors", JsArray [JsString "Throttled"])]
                        "errors") = true) as B by reflexivity.
  refine (conj Hs (conj Ho (conj B _))).
  destruct (graphql_query_errors
              (Scenario.graphql_client false (JsString "tok"))
              Scenario.shop_name_query
              (Scenario.world [("errors", JsArray [JsString "Throttled"])]))
    as [_ [A _]].
  rewrite (A (RequestReturn.mk [("errors", JsArray [JsString "Throttled"])]
                               [])
             Hs Ho eq_refl B).
  reflexivity.
Defined.

(** C10, as stated, fails: a response whose body has an [errors] key
    holding [null] is returned as it is, with the key in its body. *)
Lemma null_errors_are_returned :
  fst (GraphqlClient.query (Scenario.graphql_client false (JsString "tok"))
         Scenario.shop_name_query
         (Scenario.world Scenario.null_errors_answer))
  = inr (RequestReturn.mk Scenario.null_errors_answer []) /\
  has_key (RequestReturn.body
             (RequestReturn.mk Scenario.null_errors_answer []))
          "errors" = true.
Proof. split; vm_compute; reflexivity. Qed.

End Scenarios.

(** * Further properties of the code *)

(** ** The outcomes of [callback] *)

Section MoreFlow.
Context {RT : Runtime}.

Lemma at_cookie_check_logs (cfg : Config) (params : CallbackParams.t)
    (w : World) :
  logs (at_cookie_check cfg params w)
  = (logs w ++ deprecation_notice params
     ++ [completing_entry cfg params])%list.
Proof.
  unfold at_cookie_check, after_notice, deprecation_notice, logged,
    completing_entry.
  destruct (CallbackParams.isOnline params); cbn [logs].
  - rewrite <- app_assoc. reflexivity.
  - reflexivity.
Qed.

Lemma at_cookie_check_frame (cfg : Config) (params : CallbackParams.t)
    (w : World) :
  now (at_cookie_check cfg params w) = now w /\
  rng (at_cookie_check cfg params w) = rng w /\
  drawn (at_cookie_check cfg params w) = drawn w /\
  server (at_cookie_check cfg params w) = server w /\
  sent (at_cookie_check cfg params w) = sent w.
Proof.
  destruct (after_notice_frame params w) as [F1 [F2 [F3 [F4 F5]]]].
  unfold at_cookie_check, logged. cbn [now rng drawn server sent].
  repeat split; assumption.
Qed.

Lemma at_exchange_frame (cfg : Config) (params : CallbackParams.t)
    (w : World) :
  now (at_exchange cfg params w) = now w /\
  rng (at_exchange cfg params w) = rng w /\
  drawn (at_exchange cfg params w) = drawn w /\
  server (at_exchange cfg params w) = server w /\
  sent (at_exchange cfg params w) = sent w /\
  logs (at_exchange cfg params w)
  = (logs w ++ deprecation_notice params
     ++ [completing_entry cfg params; valid_entry cfg params])%list.
Proof.
  destruct (after_notice_frame params w) as [F1 [F2 [F3 [F4 F5]]]].
  pose proof (at_cookie_check_logs cfg params w) as L.
  unfold at_exchange, logged. cbn [now rng drawn server sent logs].
  rewrite L. unfold at_cookie_check, logged.
  cbn [now rng drawn server sent logs].
  rewrite F1, F2, F3, F4, F5. repeat split; try reflexivity.
  rewrite <- !app_assoc. reflexivity.
Qed.

Lemma callback_bad_shop (cfg : Config) (params : CallbackParams.t)
    (w : World) (st : string) :
  isPrivateApp cfg = false ->
  state_cookie cfg (CallbackParams.adapterArgs params) = Some st ->
  st <> "" ->
  validQuery cfg (Object_fromEntries (query_of cfg params)) st = true ->
  (forall s, searchParams_get (query_of cfg params) "shop" = Some s ->
             validShop cfg s = false) ->
  callback cfg params w
  = (inl (InvalidShopError "Received invalid shop argument"),
     at_exchange cfg params w).
Proof.
  intros P C E V B. rewrite (callback_valid cfg params w st) by assumption.
  apply bind_inl. unfold sanitizeShop.
  destruct (searchParams_get (query_of cfg params) "shop") as [s | ] eqn:Q;
    [rewrite (B s eq_refl) | ];
    unfold throw, at_exchange, valid_entry; rewrite Q; reflexivity.
Qed.

Lemma callback_exchange (cfg : Config) (params : CallbackParams.t)
    (w : World) (st shop : string) :
  isPrivateApp cfg = false ->
  state_cookie cfg (CallbackParams.adapterArgs params) = Some st ->
  st <> "" ->
  validQuery cfg (Object_fromEntries (query_of cfg params)) st = true ->
  searchParams_get (query_of cfg params) "shop" = Some shop ->
  validShop cfg shop = true ->
  callback cfg params w
  = match server w (sent w)
            (token_request cfg shop
               (searchParams_get (query_of cfg params) "code")) with
    | inl message =>
        (inl (HttpRequestError message), at_session cfg params shop w)
    | inr resp =>
        match createSession cfg resp shop st
                (at_session cfg params shop w) with
        | (inr session, w2) =>
            (inr (CallbackResponse.mk (callback_headers cfg session)
                                      session), w2)
        | (inl e, w2) => (inl e, w2)
        end
    end.
Proof.
  intros P C E V Hs Hv. rewrite (callback_valid cfg params w st) by assumption.
  assert (forall W,
             sanitizeShop cfg (searchParams_get (query_of cfg params) "shop")
                          W = (inr shop, W)) as S0.
  { intros W. rewrite Hs. apply sanitizeShop_valid. exact Hv. }
  rewrite (bind_inr _ _ _ _ shop (S0 _)).
  fold (valid_entry cfg params). fold (at_exchange cfg params w).
  destruct (at_exchange_frame cfg params w) as [_ [_ [_ [Fsrv [Fsent _]]]]].
  unfold bind at 1. unfold post. cbn [HttpClient.domain].
  fold (token_request cfg shop
          (searchParams_get (query_of cfg params) "code")).
  change (mkWorld _ _ _ _ _ _) with (at_session cfg params shop w).
  rewrite Fsrv, Fsent.
  destruct (server w (sent w) _) as [message | resp].
  - reflexivity.
  - unfold bind.
    destruct (createSession cfg resp shop st (at_session cfg params shop w))
      as [[e | session] w2]; [reflexivity | ].
    unfold callback_headers, abstractConvertHeaders, session_cookie.
    destruct (isEmbeddedApp cfg); reflexivity.
Qed.

Lemma createSession_total (cfg : Config) (resp : RequestReturn.t)
    (shop st : string) (w : World) :
  validShop cfg shop = true ->
  exists s w', createSession cfg resp shop st w = (inr s, w').
Proof.
  intros V.
  destruct (Boolean (prop (RequestReturn.body resp) "associated_user"))
    eqn:B; [destruct (isEmbeddedApp cfg) eqn:Em | ].
  - eexists. eexists. apply createSession_embedded; assumption.
  - eexists. eexists. apply createSession_random; assumption.
  - eexists. eexists. apply createSession_offline; assumption.
Qed.

Lemma createSession_logs (cfg : Config) (resp : RequestReturn.t)
    (shop st : string) (w w' : World) (s : Session.t) :
  validShop cfg shop = true ->
  createSession cfg resp shop st w = (inr s, w') ->
  logs w' = (logs w ++ [creation_entry shop (Session.isOnline s)])%list.
Proof.
  intros V H.
  destruct (Boolean (prop (RequestReturn.body resp) "associated_user"))
    eqn:B; [destruct (isEmbeddedApp cfg) eqn:Em | ].
  - rewrite createSession_embedded in H by assumption.
    injection H as <- <-. reflexivity.
  - rewrite createSession_random in H by assumption.
    injection H as <- <-. reflexivity.
  - rewrite createSession_offline in H by assumption.
    injection H as <- <-. reflexivity.
Qed.


(** X2: When the query has passed validation but names no shop, or a shop
    that is not valid, [callback] raises [InvalidShopError] before it
    turns to the token endpoint: no request is sent and no random value
    drawn. *)
Theorem callback_invalid_shop (cfg : Config) (params : CallbackParams.t)
    (w : World) (st : string) :
  isPrivateApp cfg = false ->
  state_cookie cfg (CallbackParams.adapterArgs params) = Some st ->
  st <> "" ->
  validQuery cfg (Object_fromEntries (query_of cfg params)) st = true ->
  (forall s, searchParams_get (query_of cfg params) "shop" = Some s ->
             validShop cfg s = false) ->
  exists m w',
    callback cfg params w = (inl (InvalidShopError m), w') /\
    sent w' = sent w /\ drawn w' = drawn w.
Proof.
  intros P C E V B. eexists. eexists.
  split; [apply (callback_bad_shop cfg params w st); assumption | ].
  destruct (at_exchange_frame cfg params w) as [_ [_ [F3 [_ [F5 _]]]]].
  split; assumption.
Qed.

(** X3: When the token endpoint does not answer, the failure of the HTTP
    client is what [callback] raises: it is not caught, exactly one
    request (the token request) was sent, and no random value drawn. *)
Theorem callback_exchange_failure (cfg : Config) (params : CallbackParams.t)
    (w : World) (st shop message : string) :
  isPrivateApp cfg = false ->
  state_cookie cfg (CallbackParams.adapterArgs params) = Some st ->
  st <> "" ->
  validQuery cfg (Object_fromEntries (query_of cfg params)) st = true ->
  searchParams_get (query_of cfg params) "shop" = Some shop ->
  validShop cfg shop = true ->
  server w (sent w)
    (token_request cfg shop (searchParams_get (query_of cfg params) "code"))
  = inl message ->
  exists w',
    callback cfg params w = (inl (HttpRequestError message), w') /\
    sent w'
    = (sent w
       ++ [token_request cfg shop
             (searchParams_get (query_of cfg params) "code")])%list /\
    drawn w' = drawn w.
Proof.
  intros P C E V Hs Hv S.
  rewrite (callback_exchange cfg params w st shop) by assumption.
  rewrite S. eexists. split; [reflexivity | ].
  destruct (at_session_frame cfg params shop w) as [_ [_ [F3 [_ F5]]]].
  split; assumption.
Qed.

(** X4: What a successful [callback] leaves in the world: one request, the
    token request for the shop of the session; the log entries
    "Completing OAuth", "OAuth request is valid, requesting access
    token" and "Creating new session" after the deprecation notice,
    whose contexts hold the shop and the online flag only; one draw
    from the random source when the session is online and the
    application not embedded, none otherwise; the clock, the source and
    the remote end are as before. *)
Theorem callback_success_trace (cfg : Config) (params : CallbackParams.t)
    (w w' : World) (r : CallbackResponse.t) :
  callback cfg params w = (inr r, w') ->
  let s := CallbackResponse.session r in
  sent w'
  = (sent w
     ++ [token_request cfg (Session.shop s)
           (searchParams_get (query_of cfg params) "code")])%list /\
  logs w'
  = (logs w ++ deprecation_notice params
     ++ [completing_entry cfg params; valid_entry cfg params;
         creation_entry (Session.shop s) (Session.isOnline s)])%list /\
  drawn w'
  = (if Session.isOnline s && negb (isEmbeddedApp cfg)
     then S (drawn w) else drawn w) /\
  now w' = now w /\ rng w' = rng w /\ server w' = server w.
Proof.
  intros H s. subst s. apply callback_ok_inv in H.
  destruct H as [st [shop [resp [_ [_ [_ [_ [_ [V [_ [H _]]]]]]]]]]].
  pose proof (createSession_logs _ _ _ _ _ _ _ V H) as L.
  apply createSession_ok_inv in H; [ | exact V].
  destruct H as [_ [Hshop [_ [_ [_ [Hoff [Hon [G1 [G2 [G3 G4]]]]]]]]]].
  destruct (at_session_frame cfg params shop w) as [F1 [F2 [F3 [F4 F5]]]].
  destruct (at_exchange_frame cfg params w) as [_ [_ [_ [_ [_ F6]]]]].
  rewrite Hshop. split; [rewrite G4; exact F5 | ]. split.
  { rewrite L. unfold at_session, posted. cbn [logs].
    fold (valid_entry cfg params). fold (at_exchange cfg params w).
    rewrite F6. rewrite <- !app_assoc. reflexivity. }
  split.
  { destruct (Session.isOnline (CallbackResponse.session r)) eqn:O.
    - destruct (Hon eq_refl) as [_ [_ [He Hr]]].
      destruct (isEmbeddedApp cfg) eqn:Em; cbn [andb negb].
      + destruct (He eq_refl) as [_ D]. rewrite D. exact F3.
      + destruct (Hr eq_refl) as [_ D]. rewrite D, F3. reflexivity.
    - destruct (Hoff eq_refl) as [_ [_ [_ D]]]. cbn [andb].
      rewrite D. exact F3. }
  rewrite G1, G2, G3, F1, F2, F4. repeat split; reflexivity.
Qed.

(** X5: Whatever its outcome, [callback] sends at most one request, draws
    at most one random value, only appends to the log, and leaves the
    clock, the random source and the remote end alone. *)
Theorem callback_frame (cfg : Config) (params : CallbackParams.t)
    (w : World) :
  let w' := snd (callback cfg params w) in
  now w' = now w /\ rng w' = rng w /\ server w' = server w /\
  (exists entries, logs w' = (logs w ++ entries)%list) /\
  (sent w' = sent w \/ exists request, sent w' = (sent w ++ [request])%list) /\
  (drawn w' = drawn w \/ drawn w' = S (drawn w)).
Proof.
  intros w'. subst w'.
  destruct (callback cfg params w) as [res w'] eqn:H; cbn [snd].
  destruct (isPrivateApp cfg) eqn:P.
  { rewrite callback_private in H by exact P. injection H as _ <-.
    repeat split; try (left; reflexivity).
    exists []. rewrite app_nil_r. reflexivity. }
  destruct (at_cookie_check_frame cfg params w) as [A1 [A2 [A3 [A4 A5]]]].
  pose proof (at_cookie_check_logs cfg params w) as A6.
  destruct (at_exchange_frame cfg params w) as [B1 [B2 [B3 [B4 [B5 B6]]]]].
  destruct (truthy_string
              (state_cookie cfg (CallbackParams.adapterArgs params))) eqn:T.
  2: { rewrite callback_no_cookie in H by assumption. injection H as _ <-.
       unfold logged. cbn [now rng drawn server sent logs].
       rewrite A1, A2, A3, A4, A5, A6.
       repeat split; try (left; reflexivity).
       eexists. rewrite <- !app_assoc. reflexivity. }
  destruct (state_cookie cfg (CallbackParams.adapterArgs params))
    as [st | ] eqn:C; [ | discriminate].
  cbn [truthy_string] in T. apply negb_true_iff in T.
  apply String.eqb_neq in T.
  destruct (validQuery cfg (Object_fromEntries (query_of cfg params)) st)
    eqn:V.
  2: { rewrite (callback_invalid cfg params w st) in H by assumption.
       injection H as _ <-.
       unfold logged. cbn [now rng drawn server sent logs].
       rewrite A1, A2, A3, A4, A5, A6.
       repeat split; try (left; reflexivity).
       eexists. rewrite <- !app_assoc. reflexivity. }
  destruct (searchParams_get (query_of cfg params) "shop") as [shop | ]
    eqn:Q.
  2: { rewrite (callback_bad_shop cfg params w st) in H; try assumption.
       - injection H as _ <-. rewrite B1, B2, B3, B4, B5, B6.
         repeat split; try (left; reflexivity). eexists. reflexivity.
       - intros s0 Hs0. rewrite Q in Hs0. discriminate. }
  destruct (validShop cfg shop) eqn:Vs.
  2: { rewrite (callback_bad_shop cfg params w st) in H; try assumption.
       - injection H as _ <-. rewrite B1, B2, B3, B4, B5, B6.
         repeat split; try (left; reflexivity). eexists. reflexivity.
       - intros s0 Hs0. rewrite Q in Hs0. injection Hs0 as <-. exact Vs. }
  rewrite (callback_exchange cfg params w st shop) in H by assumption.
  destruct (at_session_frame cfg params shop w) as [F1 [F2 [F3 [F4 F5]]]].
  destruct (server w (sent w) _) as [message | resp].
  - injection H as _ <-. rewrite F1, F2, F3, F4, F5.
    repeat split; try (left; reflexivity).
    + unfold at_session, posted. cbn [logs].
      fold (valid_entry cfg params). fold (at_exchange cfg params w).
      rewrite B6. eexists. reflexivity.
    + right. eexists. reflexivity.
  - destruct (createSession_total cfg resp shop st
                (at_session cfg params shop w) Vs) as [s0 [w0 H0]].
    rewrite H0 in H. injection H as _ <-.
    pose proof (createSession_logs _ _ _ _ _ _ _ Vs H0) as L.
    apply createSession_ok_inv in H0; [ | exact Vs].
    destruct H0 as [_ [_ [_ [_ [_ [Hoff [Hon [G1 [G2 [G3 G4]]]]]]]]]].
    rewrite G1, G2, G3, G4, F1, F2, F4, F5.
    repeat split; try reflexivity.
    + rewrite L. unfold at_session, posted. cbn [logs].
      fold (valid_entry cfg params). fold (at_exchange cfg params w).
      rewrite B6. eexists. rewrite <- !app_assoc. reflexivity.
    + right. eexists. reflexivity.
    + rewrite <- F3. destruct (Session.isOnline s0) eqn:O.
      * destruct (Hon eq_refl) as [_ [_ [He Hr]]].
        destruct (isEmbeddedApp cfg).
        -- left. apply He. reflexivity.
        -- right. apply Hr. reflexivity.
      * left. apply Hoff. reflexivity.
Qed.

(** Past its checks, [callback] fails only on the shop or on the token
    request. *)
Lemma callback_past_checks (cfg : Config) (params : CallbackParams.t)
    (w w' : World) (st : string) (e : ShopifyError) :
  isPrivateApp cfg = false ->
  state_cookie cfg (CallbackParams.adapterArgs params) = Some st ->
  st <> "" ->
  validQuery cfg (Object_fromEntries (query_of cfg params)) st = true ->
  callback cfg params w = (inl e, w') ->
  (exists m, e = InvalidShopError m) \/ (exists m, e = HttpRequestError m).
Proof.
  intros P C E V H.
  assert ((forall s, searchParams_get (query_of cfg params) "shop" = Some s ->
                     validShop cfg s = false)
          \/ exists shop,
              searchParams_get (query_of cfg params) "shop" = Some shop /\
              validShop cfg shop = true) as [B | [shop [Q Vs]]].
  { destruct (searchParams_get (query_of cfg params) "shop") as [shop | ].
    - destruct (validShop cfg shop) eqn:Vs.
      + right. exists shop. split; [reflexivity | exact Vs].
      + left. intros s0 Hs0. injection Hs0 as <-. exact Vs.
    - left. intros s0 Hs0. discriminate. }
  - rewrite (callback_bad_shop cfg params w st) in H by assumption.
    injection H as <- _. left. eexists. reflexivity.
  - rewrite (callback_exchange cfg params w st shop) in H by assumption.
    destruct (server w (sent w) _) as [message | resp] eqn:S.
    + injection H as <- _. right. eexists. reflexivity.
    + destruct (createSession_total cfg resp shop st
                  (at_session cfg params shop w) Vs) as [s0 [w0 H0]].
      rewrite H0 in H. discriminate.
Qed.

End MoreFlow.

(** ** Reading the query, and what a session holds *)

Section Reading.
Context {RT : Runtime}.

Lemma assoc_rest_excluded (ks : list string) (o : JsDict) (k : string) :
  existsb (String.eqb k) ks = true ->
  assoc k (rest_without ks o) = None.
Proof.
  intros Hk. unfold rest_without.
  induction o as [ | [k' v] o IH]; [reflexivity | ].
  cbn [filter fst]. destruct (existsb (String.eqb k') ks) eqn:X; cbn [negb].
  - exact IH.
  - cbn [assoc]. destruct (String.eqb k k') eqn:E; [ | exact IH].
    apply String.eqb_eq in E. subst k'. rewrite Hk in X. discriminate.
Qed.

(** X7: The [onlineAccessInfo] of a session that [createSession] returns is
    the body of the response without [access_token] and [scope]: the
    access token is not kept a second time there, every other member of
    the body is, and among them is the associated user. *)
Theorem onlineAccessInfo_content (cfg : Config) (resp : RequestReturn.t)
    (shop st : string) (w w' : World) (s : Session.t) (info : JsDict) :
  createSession cfg resp shop st w = (inr s, w') ->
  Session.onlineAccessInfo s = Some info ->
  assoc "access_token" info = None /\
  assoc "scope" info = None /\
  (forall k, k <> "access_token" -> k <> "scope" ->
             assoc k info = assoc k (RequestReturn.body resp)) /\
  Boolean (prop info "associated_user") = true.
Proof.
  intros H I.
  assert (info = rest_without ["access_token"; "scope"]
                   (RequestReturn.body resp)
          /\ Boolean (prop (RequestReturn.body resp) "associated_user")
             = true) as [-> B].
  { revert H.
    unfold createSession, getOfflineId, getJwtSessionId, sanitizeShop,
      uuidv4, random, Date_now, log, bind, ret, throw.
    destruct (Boolean (prop (RequestReturn.body resp) "associated_user"));
      [destruct (isEmbeddedApp cfg) | ];
      try destruct (validShop cfg shop); intros H; try discriminate;
      injection H as <- _; cbn in I; try discriminate;
      injection I as <-; split; reflexivity. }
  split; [apply assoc_rest_excluded; reflexivity | ].
  split; [apply assoc_rest_excluded; reflexivity | ].
  split.
  - intros k N1 N2. apply assoc_rest_without. cbn [existsb].
    apply String.eqb_neq in N1. apply String.eqb_neq in N2.
    rewrite N1, N2. reflexivity.
  - rewrite prop_rest_without by reflexivity. exact B.
Qed.

(** X8: How a successful [callback] has read its query: the shop of the
    session is the first [shop] parameter, while the HMAC was verified
    on the object built from the entries, in which the last parameter
    under a name is the one that counts; the state of the session is
    the verified cookie value, and it is the last [state] parameter. *)
Theorem callback_query_reading (cfg : Config) (params : CallbackParams.t)
    (w w' : World) (r : CallbackResponse.t) :
  callback cfg params w = (inr r, w') ->
  let q := query_of cfg params in
  let s := CallbackResponse.session r in
  assoc "shop" q = Some (Session.shop s) /\
  validShop cfg (Session.shop s) = true /\
  validateHmac cfg (Object_fromEntries q) = true /\
  (forall k, assoc k (Object_fromEntries q) = assoc k (rev q)) /\
  state_cookie cfg (CallbackParams.adapterArgs params)
  = Some (Session.state s) /\
  assoc "state" (rev q) = Some (Session.state s).
Proof.
  intros H q s. subst q s. apply callback_ok_inv in H.
  destruct H as [st [shop [resp [_ [C [_ [V [Hs [Hv [_ [H _]]]]]]]]]]].
  apply createSession_ok_inv in H; [ | exact Hv].
  destruct H as [_ [-> [-> _]]].
  unfold validQuery in V. apply andb_true_iff in V. destruct V as [V1 V2].
  repeat split; try assumption.
  - intros k. apply assoc_fromEntries.
  - rewrite <- assoc_fromEntries. unfold safeCompare in V2.
    destruct (assoc "state" (Object_fromEntries (query_of cfg params)))
      as [x | ]; [ | discriminate].
    apply String.eqb_eq in V2. subst x. reflexivity.
Qed.

(** X9: [begin] and [callback] fit together.  A client sends back the
    cookies of the response of a successful [begin], whose nonce is not
    empty, with a query whose HMAC verifies.  If the [state] of that
    query is the nonce, [callback] under the same configuration raises
    neither [CookieNotFound] nor [InvalidOAuthError], and a session it
    returns has the nonce as its state; if the [state] is anything
    else, or missing, [callback] raises [InvalidOAuthError]. *)
Theorem begin_then_callback (cfg : Config) (bparams : BeginParams.t)
    (w w1 : World) (resp : NormalizedResponse.t)
    (cparams : CallbackParams.t) :
  begin cfg bparams w = (inr resp, w1) ->
  NormalizedRequest.cookie (CallbackParams.adapterArgs cparams)
  = returned_cookies (Headers.SetCookie (NormalizedResponse.headers resp)) ->
  rng w (drawn w) <> "" ->
  validateHmac cfg (Object_fromEntries (query_of cfg cparams)) = true ->
  forall w2,
    (assoc "state" (rev (query_of cfg cparams)) = Some (rng w (drawn w)) ->
     (forall e w3,
         callback cfg cparams w2 = (inl e, w3) ->
         (forall m, e <> CookieNotFound m)
         /\ (forall m, e <> InvalidOAuthError m)) /\
     (forall r w3,
         callback cfg cparams w2 = (inr r, w3) ->
         Session.state (CallbackResponse.session r) = rng w (drawn w))) /\
    (assoc "state" (rev (query_of cfg cparams)) <> Some (rng w (drawn w)) ->
     exists w3,
       callback cfg cparams w2
       = (inl (InvalidOAuthError "Invalid OAuth callback."), w3)).
Proof.
  intros H Hc E Hh w2. apply begin_ok_inv in H.
  destruct H as [P [_ [-> _]]].
  cbn [NormalizedResponse.headers Headers.SetCookie returned_cookies
       flat_map CookieData.signature CookieData.name CookieData.value app]
    in Hc.
  assert (state_cookie cfg (CallbackParams.adapterArgs cparams)
          = Some (rng w (drawn w))) as C.
  { unfold state_cookie, Cookies.getAndVerify, Cookies.new.
    cbn [Cookies.received Cookies.keys]. rewrite Hc. cbn [assoc existsb].
    rewrite !String.eqb_refl. reflexivity. }
  split.
  - intros Hst.
    assert (validQuery cfg (Object_fromEntries (query_of cfg cparams))
                       (rng w (drawn w)) = true) as V.
    { unfold validQuery. rewrite Hh, assoc_fromEntries, Hst.
      cbn [safeCompare andb]. apply String.eqb_refl. }
    split.
    + intros e w3 H.
      destruct (callback_past_checks cfg cparams w2 w3 _ e P C E V H)
        as [[m ->] | [m ->]]; split; intros m'; discriminate.
    + intros r w3 H. apply callback_ok_inv in H.
      destruct H as [st [shop [resp [_ [C' [_ [_ [_ [Hv [_ [H _]]]]]]]]]]].
      apply createSession_ok_inv in H; [ | exact Hv].
      destruct H as [_ [_ [-> _]]]. rewrite C in C'. injection C' as <-.
      reflexivity.
  - intros Hst. eexists.
    apply (callback_invalid cfg cparams w2 (rng w (drawn w)));
      try assumption.
    unfold validQuery. rewrite Hh, assoc_fromEntries. cbn [andb].
    unfold safeCompare.
    destruct (assoc "state" (rev (query_of cfg cparams))) as [x | ];
      [ | reflexivity].
    apply String.eqb_neq. intros ->. apply Hst. reflexivity.
Qed.

(** X10: [begin] succeeds exactly for an application that is not private
    and a shop that is valid.  For an invalid shop it raises
    [InvalidShopError] after its first log entry and before it draws a
    nonce: no random value is consumed. *)
Theorem begin_outcome (cfg : Config) (params : BeginParams.t) (w : World) :
  ((exists resp w', begin cfg params w = (inr resp, w'))
   <-> isPrivateApp cfg = false
       /\ validShop cfg (BeginParams.shop params) = true) /\
  (isPrivateApp cfg = false ->
   validShop cfg (BeginParams.shop params) = false ->
   exists m w',
     begin cfg params w = (inl (InvalidShopError m), w') /\
     drawn w' = drawn w /\ sent w' = sent w /\
     exists entry, logs w' = (logs w ++ [entry])%list).
Proof.
  split; [split | ].
  - intros [resp [w' H]]. apply begin_ok_inv in H.
    destruct H as [P [V _]]. split; assumption.
  - intros [P V]. unfold begin, throwIfPrivateApp, sanitizeShop.
    rewrite P, V. eexists. eexists. reflexivity.
  - intros P V. unfold begin, throwIfPrivateApp, sanitizeShop.
    rewrite P, V. eexists. eexists. split; [reflexivity | ].
    cbn [drawn sent logs]. repeat split. eexists. reflexivity.
Qed.

(** X11: What a successful [begin] leaves in the world: no request is sent;
    exactly one random value, the nonce, is drawn; and two entries are
    logged, the second of which carries the redirect URL and with it
    the nonce. *)
Theorem begin_success_trace (cfg : Config) (params : BeginParams.t)
    (w w' : World) (resp : NormalizedResponse.t) :
  begin cfg params w = (inr resp, w') ->
  sent w' = sent w /\
  drawn w' = S (drawn w) /\
  logs w' = (logs w ++ begin_entries cfg params (rng w (drawn w)))%list /\
  now w' = now w /\ rng w' = rng w /\ server w' = server w.
Proof.
  unfold begin, throwIfPrivateApp, sanitizeShop.
  destruct (isPrivateApp cfg); [unfold bind, throw; discriminate | ].
  destruct (validShop cfg (BeginParams.shop params)).
  - unfold bind, ret, log, nonce, random, Date_now, Cookies.setAndSign,
      abstractConvertResponse, abstractConvertRequest.
    cbn [Cookies.new Cookies.keys Cookies.secure Cookies.received
         Cookies.outgoing now rng drawn server sent logs app].
    intros H. injection H as _ <-. cbn [now rng drawn server sent logs].
    unfold begin_entries. rewrite <- app_assoc.
    repeat split; reflexivity.
  - unfold bind, ret, throw, log. discriminate.
Qed.

End Reading.

(** ** More on the GraphQL client *)

Section MoreGraphql.
Context {RT : Runtime}.

Lemma constructor_ok_inv (cfg : Config) (params : GraphqlClientParams.t)
    (w w' : World) (client : GraphqlClient.t) :
  GraphqlClient.constructor cfg params w = (inr client, w') ->
  (isPrivateApp cfg = true
   \/ Boolean (Session.accessToken (GraphqlClientParams.session params))
      = true) /\
  client
  = GraphqlClient.mk cfg "/admin/api" (GraphqlClientParams.session params)
      (HttpClient.new (Session.shop (GraphqlClientParams.session params))) /\
  w' = w.
Proof.
  unfold GraphqlClient.constructor.
  destruct (isPrivateApp cfg);
    destruct (Boolean (Session.accessToken
                         (GraphqlClientParams.session params)));
    cbn [negb andb]; unfold ret, throw; intros H; try discriminate;
    injection H as <- <-; repeat split; auto.
Qed.

(** X12: The constructor succeeds exactly when the application is private or
    the access token of the session is truthy: an empty string is
    refused like a missing token.  It touches nothing in the world,
    and the client it builds talks to the shop of the session. *)
Theorem constructor_outcome (cfg : Config) (params : GraphqlClientParams.t)
    (w : World) :
  ((exists client w', GraphqlClient.constructor cfg params w
                      = (inr client, w'))
   <-> isPrivateApp cfg = true
       \/ Boolean (Session.accessToken (GraphqlClientParams.session params))
          = true) /\
  (forall client w',
      GraphqlClient.constructor cfg params w = (inr client, w') ->
      w' = w /\
      GraphqlClient.CONFIG client = cfg /\
      GraphqlClient.session client = GraphqlClientParams.session params /\
      HttpClient.domain (GraphqlClient.client client)
      = Session.shop (GraphqlClientParams.session params)) /\
  (isPrivateApp cfg = false ->
   Session.accessToken (GraphqlClientParams.session params) = JsString "" ->
   GraphqlClient.constructor cfg params w
   = (inl (MissingRequiredArgument
             "Missing access token when creating GraphQL client"), w)).
Proof.
  split; [split | split].
  - intros [client [w' H]]. apply constructor_ok_inv in H. apply H.
  - intros H. unfold GraphqlClient.constructor.
    destruct H as [H | H]; rewrite H; cbn [negb andb].
    + eexists. eexists. reflexivity.
    + rewrite andb_false_r. eexists. eexists. reflexivity.
  - intros client w' H. apply constructor_ok_inv in H.
    destruct H as [_ [-> ->]]. repeat split; reflexivity.
  - intros P T. unfold GraphqlClient.constructor. rewrite P, T.
    reflexivity.
Qed.

(** X13: A client built for an application that is not private sends the
    access token of its session, and that token is never falsy. *)
Theorem session_token_header (cfg : Config) (params : GraphqlClientParams.t)
    (w w' : World) (client : GraphqlClient.t) :
  GraphqlClient.constructor cfg params w = (inr client, w') ->
  isPrivateApp cfg = false ->
  GraphqlClient.getAccessTokenHeader client
  = AccessTokenHeader.mk ShopifyHeader_AccessToken
      (Session.accessToken (GraphqlClientParams.session params)) /\
  Boolean (AccessTokenHeader.value
             (GraphqlClient.getAccessTokenHeader client)) = true.
Proof.
  intros H P. apply constructor_ok_inv in H.
  destruct H as [[H | H] [-> _]]; [congruence | ].
  unfold GraphqlClient.getAccessTokenHeader.
  cbn [GraphqlClient.CONFIG GraphqlClient.session AccessTokenHeader.value].
  rewrite P. split; [reflexivity | exact H].
Qed.

(** X14: The request of [query], for a client the constructor built: it goes
    to the shop of the session, at [/admin/api/<apiVersion>/graphql.json];
    its type is JSON for data that is an object and GraphQL for data
    that is a string; the data, the query and the number of tries are
    the caller's. *)
Theorem query_request_shape (cfg : Config) (cparams : GraphqlClientParams.t)
    (w0 w1 : World) (client : GraphqlClient.t) (params : GraphqlParams.t)
    (w : World) :
  GraphqlClient.constructor cfg cparams w0 = (inr client, w1) ->
  GraphqlParams.data params <> DataString "" ->
  GraphqlParams.data params <> DataObject [] ->
  exists request,
    sent (snd (GraphqlClient.query client params w))
    = (sent w ++ [request])%list /\
    HttpRequest.domain request
    = Session.shop (GraphqlClientParams.session cparams) /\
    HttpRequest.path request
    = "/admin/api/" ++ apiVersion cfg ++ "/graphql.json" /\
    HttpRequest.type request
    = (match GraphqlParams.data params with
       | DataObject _ => DataType_JSON
       | DataString _ => DataType_GraphQL
       end) /\
    HttpRequest.data request = GraphqlParams.data params /\
    HttpRequest.query request = GraphqlParams.query params /\
    HttpRequest.tries request = GraphqlParams.tries params.
Proof.
  intros H Hs Ho. apply constructor_ok_inv in H. destruct H as [_ [-> _]].
  exists (graphql_request
            (GraphqlClient.mk cfg "/admin/api"
               (GraphqlClientParams.session cparams)
               (HttpClient.new
                  (Session.shop (GraphqlClientParams.session cparams))))
            params).
  split.
  - rewrite query_run by assumption.
    destruct (server w (sent w) _) as [message | result];
      [ | destruct (Boolean _)]; reflexivity.
  - repeat split; reflexivity.
Qed.

(** X15: Whatever its outcome, [query] logs nothing, draws no random value
    and leaves the clock and the remote end alone; it sends no request
    for missing data and exactly one otherwise, also when the response
    carries errors or the client fails; and a failure of the client is
    raised as it is. *)
Theorem query_frame (client : GraphqlClient.t) (params : GraphqlParams.t)
    (w : World) :
  let w' := snd (GraphqlClient.query client params w) in
  now w' = now w /\ rng w' = rng w /\ drawn w' = drawn w /\
  server w' = server w /\ logs w' = logs w /\
  (GraphqlParams.data params = DataString ""
   \/ GraphqlParams.data params = DataObject [] ->
   sent w' = sent w) /\
  (GraphqlParams.data params <> DataString "" ->
   GraphqlParams.data params <> DataObject [] ->
   sent w' = (sent w ++ [graphql_request client params])%list /\
   forall message,
     server w (sent w) (graphql_request client params) = inl message ->
     fst (GraphqlClient.query client params w)
     = inl (HttpRequestError message)).
Proof.
  intros w'. subst w'.
  destruct (GraphqlParams.data params) as [[ | a s0] | [ | kv o]] eqn:D.
  1, 3: rewrite query_missing by (rewrite D; auto); cbn [snd];
    repeat split; try reflexivity; intros; congruence.
  all: rewrite query_run by (rewrite D; discriminate);
    destruct (server w (sent w) (graphql_request client params))
      as [message | result] eqn:S;
    [ | destruct (Boolean (prop (RequestReturn.body result) "errors"))];
    cbn [snd fst]; repeat split; try reflexivity;
    try (intros [H | H]; discriminate);
    intros; congruence.
Qed.

(** X16: For data that is not missing, [query] sends one request, and
    its headers hold, under each name, the last of the caller's extra
    headers of that name; without one, the client's access token under
    the access-token name, and nothing under any other name.  A caller
    who passes the access-token header thereby replaces the client's. *)
Theorem query_sends_headers (client : GraphqlClient.t)
    (params : GraphqlParams.t) (w : World) :
  GraphqlParams.data params <> DataString "" ->
  GraphqlParams.data params <> DataObject [] ->
  exists request headers,
    sent (snd (GraphqlClient.query client params w))
    = (sent w ++ [request])%list /\
    HttpRequest.extraHeaders request = Some headers /\
    forall k,
      assoc k headers
      = match assoc k (rev (or_default []
                              (GraphqlParams.extraHeaders params))) with
        | Some v => Some v
        | None =>
            if String.eqb k ShopifyHeader_AccessToken
            then Some (AccessTokenHeader.value
                         (GraphqlClient.getAccessTokenHeader client))
            else None
        end.
Proof.
  intros Hs Ho. exists (graphql_request client params).
  exists (graphql_headers client params). split.
  { rewrite query_run by assumption.
    destruct (server w (sent w) _) as [message | result];
      [ | destruct (Boolean _)]; reflexivity. }
  split; [reflexivity | ].
  intros k. unfold graphql_headers. rewrite assoc_spread.
  unfold or_default. destruct (GraphqlParams.extraHeaders params);
    reflexivity.
Qed.

End MoreGraphql.

(** ** The helpers of the webhook tests *)

Section Helpers.

(** X17: [headers] holds, under each name, the value of the last of the four
    headers written under that name: the webhook id, else the domain,
    else the topic, else the HMAC, each with its default when the
    caller leaves it out; and nothing under any other name.  With
    [lowercase] the names are the lower-cased ones. *)
Theorem headers_lookup (names : ShopifyHeader.t)
    (toLowerCase : string -> string) (args : option HeadersArgs.t)
    (k : string) :
  let given := or_default (HeadersArgs.mk None None None None None) args in
  let key := fun name =>
    if or_default false (HeadersArgs.lowercase given)
    then toLowerCase name else name in
  assoc k (headers names toLowerCase args)
  = if String.eqb k (key (ShopifyHeader.WebhookId names))
    then Some (or_default "123456789" (HeadersArgs.webhookId given))
    else if String.eqb k (key (ShopifyHeader.Domain names))
    then Some (or_default "shop1.myshopify.io" (HeadersArgs.domain given))
    else if String.eqb k (key (ShopifyHeader.Topic names))
    then Some (or_default "products/create" (HeadersArgs.topic given))
    else if String.eqb k (key (ShopifyHeader.Hmac names))
    then Some (or_default "fake" (HeadersArgs.hmac given))
    else None.
Proof.
  intros given key. unfold headers. fold given. cbv zeta. fold key.
  rewrite !assoc_assign. reflexivity.
Qed.

Lemma append_assoc (a b c : string) : (a ++ b) ++ c = a ++ (b ++ c).
Proof.
  induction a as [ | x a IH]; [reflexivity | ].
  cbn [append]. rewrite IH. reflexivity.
Qed.

Lemma append_empty (a : string) : a ++ "" = a.
Proof.
  induction a as [ | x a IH]; [reflexivity | ].
  cbn [append]. rewrite IH. reflexivity.
Qed.

Lemma parseRawBody_from (events : list RawBody.Event) (body : string)
    (n : nat) :
  fold_left RawBody.on events (RawBody.mk body n)
  = RawBody.mk (body ++ String.concat "" (RawBody.chunks events))
               (n + RawBody.ends events).
Proof.
  revert body n. induction events as [ | e events IH]; intros body n.
  - cbn. rewrite append_empty, <- plus_n_O. reflexivity.
  - destruct e as [chunk | ]; cbn [fold_left RawBody.on RawBody.rawBody
                                   RawBody.next_calls]; rewrite IH.
    + unfold RawBody.chunks, RawBody.ends. cbn [flat_map filter app].
      fold (RawBody.chunks events). fold (RawBody.ends events).
      f_equal. rewrite append_assoc. f_equal.
      destruct (RawBody.chunks events) as [ | c cs]; cbn [String.concat].
      * apply append_empty.
      * reflexivity.
    + unfold RawBody.chunks, RawBody.ends. cbn [flat_map filter app length].
      fold (RawBody.chunks events). fold (RawBody.ends events).
      f_equal. rewrite <- plus_n_Sm. reflexivity.
Qed.

(** X18: [parseRawBody] leaves in [req.rawBody] the chunks of the request in
    the order they came, joined without a separator, and runs [next]
    once for each end of the stream; a request that arrives in two
    parts is read as the two parts in a row. *)
Theorem parseRawBody_collects (events more : list RawBody.Event) :
  RawBody.rawBody (RawBody.parseRawBody events)
  = String.concat "" (RawBody.chunks events) /\
  RawBody.next_calls (RawBody.parseRawBody events) = RawBody.ends events /\
  RawBody.rawBody (RawBody.parseRawBody (events ++ more))
  = RawBody.rawBody (RawBody.parseRawBody events)
    ++ RawBody.rawBody (RawBody.parseRawBody more).
Proof.
  unfold RawBody.parseRawBody. rewrite fold_left_app, !parseRawBody_from.
  cbn [RawBody.rawBody RawBody.next_calls append]. repeat split.
Qed.

End Helpers.

(** ** The further properties on the concrete application *)

Section MoreScenarios.
Existing Instance Scenario.runtime.


(** A signed callback without a shop is refused before any request. *)
Lemma callback_invalid_shop_witness :
  isPrivateApp Replay.app = false /\
  state_cookie Replay.app Replay.shopless_request = Some "n1" /\
  "n1" <> "" /\
  validQuery Replay.app
    (Object_fromEntries
       (query_of Replay.app
                 (CallbackParams.mk None Replay.shopless_request)))
    "n1" = true /\
  searchParams_get
    (query_of Replay.app (CallbackParams.mk None Replay.shopless_request))
    "shop" = None /\
  exists m w',
    callback Replay.app (CallbackParams.mk None Replay.shopless_request)
             (Scenario.world Scenario.offline_answer)
    = (inl (InvalidShopError m), w') /\
    sent w' = [].
Proof.
  assert (isPrivateApp Replay.app = false) as P by reflexivity.
  assert (state_cookie Replay.app Replay.shopless_request = Some "n1") as C
    by (vm_compute; reflexivity).
  assert ("n1" <> "") as E by discriminate.
  assert (validQuery Replay.app
            (Object_fromEntries
               (query_of Replay.app
                         (CallbackParams.mk None Replay.shopless_request)))
            "n1" = true) as V by (vm_compute; reflexivity).
  assert (searchParams_get
            (query_of Replay.app
                      (CallbackParams.mk None Replay.shopless_request))
            "shop" = None) as Q by (vm_compute; reflexivity).
  refine (conj P (conj C (conj E (conj V (conj Q _))))).
  destruct (callback_invalid_shop Replay.app
              (CallbackParams.mk None Replay.shopless_request)
              (Scenario.world Scenario.offline_answer) "n1" P C E V)
    as [m [w' [H [A _]]]].
  { intros s Hs. rewrite Q in Hs. discriminate. }
  exists m, w'. exact (conj H A).
Defined.

(** A refusal of the token endpoint comes out of [callback] as the
    error of the HTTP client. *)
Lemma callback_exchange_failure_witness :
  isPrivateApp Replay.app = false /\
  state_cookie Replay.app (CallbackParams.adapterArgs Replay.genuine)
  = Some "n1" /\
  "n1" <> "" /\
  validQuery Replay.app
    (Object_fromEntries (query_of Replay.app Replay.genuine)) "n1" = true /\
  searchParams_get (query_of Replay.app Replay.genuine) "shop"
  = Some Replay.shop1 /\
  validShop Replay.app Replay.shop1 = true /\
  fst (callback Replay.app Replay.genuine Replay.refusing_world)
  = inl (HttpRequestError "Received an error response (400 Bad Request)").
Proof.
  assert (isPrivateApp Replay.app = false) as P by reflexivity.
  assert (state_cookie Replay.app
            (CallbackParams.adapterArgs Replay.genuine) = Some "n1") as C
    by (vm_compute; reflexivity).
  assert ("n1" <> "") as E by discriminate.
  assert (validQuery Replay.app
            (Object_fromEntries (query_of Replay.app Replay.genuine)) "n1"
          = true) as V by (vm_compute; reflexivity).
  assert (searchParams_get (query_of Replay.app Replay.genuine) "shop"
          = Some Replay.shop1) as Hs by (vm_compute; reflexivity).
  assert (validShop Replay.app Replay.shop1 = true) as Hv
    by (vm_compute; reflexivity).
  refine (conj P (conj C (conj E (conj V (conj Hs (conj Hv _)))))).
  destruct (callback_exchange_failure Replay.app Replay.genuine
              Replay.refusing_world "n1" Replay.shop1
              "Received an error response (400 Bad Request)"
              P C E V Hs Hv eq_refl) as [w' [H _]].
  rewrite H. reflexivity.
Defined.

(** Scenario B leaves one request and three log entries. *)
Lemma callback_success_trace_witness :
  callback Replay.app Replay.genuine (Scenario.world Scenario.offline_answer)
  = (inr (Scenario.response_for false Scenario.offline_session),
     snd (callback Replay.app Replay.genuine
            (Scenario.world Scenario.offline_answer))) /\
  sent (snd (callback Replay.app Replay.genuine
               (Scenario.world Scenario.offline_answer)))
  = [token_request Replay.app Replay.shop1 (Some "abc")].
Proof.
  assert (callback Replay.app Replay.genuine
            (Scenario.world Scenario.offline_answer)
          = (inr (Scenario.response_for false Scenario.offline_session),
             snd (callback Replay.app Replay.genuine
                    (Scenario.world Scenario.offline_answer)))) as H
    by (vm_compute; reflexivity).
  refine (conj H _).
  destruct (callback_success_trace _ _ _ _ _ H) as [A _].
  rewrite A. vm_compute. reflexivity.
Defined.

(** The online session of scenario C keeps the associated user, and
    not the access token, in its [onlineAccessInfo]. *)
Lemma onlineAccessInfo_content_witness :
  createSession (Scenario.config true false)
    (RequestReturn.mk Scenario.online_answer []) Replay.shop1 "n1"
    (Scenario.world [])
  = (inr (Scenario.online_session "shop1.myshopify.io_999"),
     snd (createSession (Scenario.config true false)
            (RequestReturn.mk Scenario.online_answer []) Replay.shop1 "n1"
            (Scenario.world []))) /\
  Session.onlineAccessInfo (Scenario.online_session "shop1.myshopify.io_999")
  = Some [("expires_in", JsNumber 3600);
          ("associated_user_scope", JsString "read_products");
          ("associated_user", JsObject [("id", JsNumber 999)])] /\
  assoc "access_token"
    [("expires_in", JsNumber 3600);
     ("associated_user_scope", JsString "read_products");
     ("associated_user", JsObject [("id", JsNumber 999)])] = None.
Proof.
  assert (createSession (Scenario.config true false)
            (RequestReturn.mk Scenario.online_answer []) Replay.shop1 "n1"
            (Scenario.world [])
          = (inr (Scenario.online_session "shop1.myshopify.io_999"),
             snd (createSession (Scenario.config true false)
                    (RequestReturn.mk Scenario.online_answer [])
                    Replay.shop1 "n1" (Scenario.world [])))) as H
    by (vm_compute; reflexivity).
  assert (Session.onlineAccessInfo
            (Scenario.online_session "shop1.myshopify.io_999")
          = Some [("expires_in", JsNumber 3600);
                  ("associated_user_scope", JsString "read_products");
                  ("associated_user", JsObject [("id", JsNumber 999)])]) as I
    by reflexivity.
  refine (conj H (conj I _)).
  destruct (onlineAccessInfo_content _ _ _ _ _ _ _ _ H I) as [A _].
  exact A.
Defined.

(** A query that names shop1 first and shop2 last, signed with shop2:
    the session is for shop1. *)
Lemma callback_query_reading_witness :
  callback Replay.app
    (CallbackParams.mk None (Replay.two_shops_request "n1" "n1"))
    (Scenario.world Scenario.offline_answer)
  = (inr (Scenario.response_for false Scenario.offline_session),
     snd (callback Replay.app
            (CallbackParams.mk None (Replay.two_shops_request "n1" "n1"))
            (Scenario.world Scenario.offline_answer))) /\
  assoc "shop"
    (query_of Replay.app
       (CallbackParams.mk None (Replay.two_shops_request "n1" "n1")))
  = Some "shop1.myshopify.io" /\
  assoc "shop"
    (Object_fromEntries
       (query_of Replay.app
          (CallbackParams.mk None (Replay.two_shops_request "n1" "n1"))))
  = Some "shop2.myshopify.io".
Proof.
  assert (callback Replay.app
            (CallbackParams.mk None (Replay.two_shops_request "n1" "n1"))
            (Scenario.world Scenario.offline_answer)
          = (inr (Scenario.response_for false Scenario.offline_session),
             snd (callback Replay.app
                    (CallbackParams.mk None
                       (Replay.two_shops_request "n1" "n1"))
                    (Scenario.world Scenario.offline_answer)))) as H
    by (vm_compute; reflexivity).
  refine (conj H _).
  destruct (callback_query_reading _ _ _ _ _ H) as [A [_ [_ [B _]]]].
  split; [exact A | ]. rewrite B. vm_compute. reflexivity.
Defined.

(** The client follows the redirect of scenario A with the nonce as
    its state: the session [callback] returns is bound to that nonce. *)
Lemma begin_then_callback_witness :
  begin Replay.app (Scenario.begin_params false) (Scenario.world [])
  = (inr Scenario.begin_response,
     snd (begin Replay.app (Scenario.begin_params false)
                (Scenario.world []))) /\
  NormalizedRequest.cookie
    (CallbackParams.adapterArgs Replay.followed)
  = returned_cookies
      (Headers.SetCookie
         (NormalizedResponse.headers Scenario.begin_response)) /\
  "draw-0" <> "" /\
  validateHmac Replay.app
    (Object_fromEntries (query_of Replay.app Replay.followed)) = true /\
  assoc "state" (rev (query_of Replay.app Replay.followed))
  = Some "draw-0" /\
  callback Replay.app Replay.followed
           (Scenario.world Scenario.offline_answer)
  = (inr (Scenario.response_for false Replay.followed_session),
     snd (callback Replay.app Replay.followed
            (Scenario.world Scenario.offline_answer))) /\
  Session.state Replay.followed_session = "draw-0".
Proof.
  assert (begin Replay.app (Scenario.begin_params false) (Scenario.world [])
          = (inr Scenario.begin_response,
             snd (begin Replay.app (Scenario.begin_params false)
                        (Scenario.world [])))) as H
    by (vm_compute; reflexivity).
  assert (NormalizedRequest.cookie
            (CallbackParams.adapterArgs Replay.followed)
          = returned_cookies
              (Headers.SetCookie
                 (NormalizedResponse.headers Scenario.begin_response))) as C
    by reflexivity.
  assert ("draw-0" <> "") as E by discriminate.
  assert (validateHmac Replay.app
            (Object_fromEntries (query_of Replay.app Replay.followed))
          = true) as Hh by (vm_compute; reflexivity).
  assert (assoc "state" (rev (query_of Replay.app Replay.followed))
          = Some "draw-0") as Hst by (vm_compute; reflexivity).
  assert (callback Replay.app Replay.followed
                   (Scenario.world Scenario.offline_answer)
          = (inr (Scenario.response_for false Replay.followed_session),
             snd (callback Replay.app Replay.followed
                    (Scenario.world Scenario.offline_answer)))) as K
    by (vm_compute; reflexivity).
  refine (conj H (conj C (conj E (conj Hh (conj Hst (conj K _)))))).
  destruct (begin_then_callback Replay.app (Scenario.begin_params false)
              (Scenario.world []) _ Scenario.begin_response Replay.followed
              H C E Hh (Scenario.world Scenario.offline_answer)) as [A _].
  destruct (A Hst) as [_ B].
  exact (B _ _ K).
Defined.

(** A shop outside the platform's domains is refused by [begin]. *)
Lemma begin_outcome_witness :
  isPrivateApp Replay.app = false /\
  validShop Replay.app "shop1.example.com" = false /\
  exists m w',
    begin Replay.app
      (BeginParams.mk "shop1.example.com" "/auth/callback" false
         (NormalizedRequest.mk "/auth/begin" []))
      (Scenario.world [])
    = (inl (InvalidShopError m), w') /\
    drawn w' = 0%nat.
Proof.
  assert (isPrivateApp Replay.app = false) as P by reflexivity.
  assert (validShop Replay.app "shop1.example.com" = false) as V
    by (vm_compute; reflexivity).
  refine (conj P (conj V _)).
  destruct (begin_outcome Replay.app
              (BeginParams.mk "shop1.example.com" "/auth/callback" false
                 (NormalizedRequest.mk "/auth/begin" []))
              (Scenario.world [])) as [_ A].
  destruct (A P V) as [m [w' [H [D _]]]].
  exists m, w'. exact (conj H D).
Defined.

(** Scenario A draws one random value and sends nothing. *)
Lemma begin_success_trace_witness :
  begin Replay.app (Scenario.begin_params false) (Scenario.world [])
  = (inr Scenario.begin_response,
     snd (begin Replay.app (Scenario.begin_params false)
                (Scenario.world []))) /\
  drawn (snd (begin Replay.app (Scenario.begin_params false)
                    (Scenario.world []))) = 1%nat /\
  sent (snd (begin Replay.app (Scenario.begin_params false)
                   (Scenario.world []))) = [].
Proof.
  assert (begin Replay.app (Scenario.begin_params false) (Scenario.world [])
          = (inr Scenario.begin_response,
             snd (begin Replay.app (Scenario.begin_params false)
                        (Scenario.world [])))) as H
    by (vm_compute; reflexivity).
  refine (conj H _).
  destruct (begin_success_trace _ _ _ _ _ H) as [A [B _]].
  exact (conj B A).
Defined.

(** An empty access token is refused like a missing one. *)
Lemma constructor_outcome_witness :
  isPrivateApp Replay.app = false /\
  Session.accessToken (Scenario.session_with (JsString "")) = JsString "" /\
  GraphqlClient.constructor Replay.app
    (GraphqlClientParams.mk (Scenario.session_with (JsString "")))
    (Scenario.world [])
  = (inl (MissingRequiredArgument
            "Missing access token when creating GraphQL client"),
     Scenario.world []).
Proof.
  assert (isPrivateApp Replay.app = false) as P by reflexivity.
  assert (Session.accessToken (Scenario.session_with (JsString ""))
          = JsString "") as T by reflexivity.
  refine (conj P (conj T _)).
  destruct (constructor_outcome Replay.app
              (GraphqlClientParams.mk (Scenario.session_with (JsString "")))
              (Scenario.world [])) as [_ [_ A]].
  exact (A P T).
Defined.

(** The client of the resource tests sends the token of its session. *)
Lemma session_token_header_witness :
  GraphqlClient.constructor Replay.app
    (GraphqlClientParams.mk
       (Scenario.session_with (JsString "this_is_a_test_token")))
    (Scenario.world [])
  = (inr (Scenario.graphql_client false (JsString "this_is_a_test_token")),
     Scenario.world []) /\
  isPrivateApp Replay.app = false /\
  GraphqlClient.getAccessTokenHeader
    (Scenario.graphql_client false (JsString "this_is_a_test_token"))
  = AccessTokenHeader.mk "X-Shopify-Access-Token"
      (JsString "this_is_a_test_token").
Proof.
  assert (GraphqlClient.constructor Replay.app
            (GraphqlClientParams.mk
               (Scenario.session_with (JsString "this_is_a_test_token")))
            (Scenario.world [])
          = (inr (Scenario.graphql_client false
                    (JsString "this_is_a_test_token")),
             Scenario.world [])) as H by reflexivity.
  assert (isPrivateApp Replay.app = false) as P by reflexivity.
  refine (conj H (conj P _)).
  destruct (session_token_header _ _ _ _ _ H P) as [A _].
  exact A.
Defined.

(** A string query goes out as GraphQL to the versioned path. *)
Lemma query_request_shape_witness :
  GraphqlClient.constructor Replay.app
    (GraphqlClientParams.mk (Scenario.session_with (JsString "tok")))
    (Scenario.world [])
  = (inr (Scenario.graphql_client false (JsString "tok")),
     Scenario.world []) /\
  GraphqlParams.data Scenario.shop_name_query <> DataString "" /\
  GraphqlParams.data Scenario.shop_name_query <> DataObject [] /\
  exists request,
    sent (snd (GraphqlClient.query
                 (Scenario.graphql_client false (JsString "tok"))
                 Scenario.shop_name_query (Scenario.world [])))
    = [request] /\
    HttpRequest.path request = "/admin/api/2022-10/graphql.json" /\
    HttpRequest.type request = DataType_GraphQL.
Proof.
  assert (GraphqlClient.constructor Replay.app
            (GraphqlClientParams.mk (Scenario.session_with (JsString "tok")))
            (Scenario.world [])
          = (inr (Scenario.graphql_client false (JsString "tok")),
             Scenario.world [])) as H by reflexivity.
  assert (GraphqlParams.data Scenario.shop_name_query <> DataString "")
    as Hs by discriminate.
  assert (GraphqlParams.data Scenario.shop_name_query <> DataObject [])
    as Ho by discriminate.
  refine (conj H (conj Hs (conj Ho _))).
  destruct (query_request_shape _ _ _ _ _ Scenario.shop_name_query
              (Scenario.world []) H Hs Ho)
    as [request [A [_ [B [C _]]]]].
  exists request. exact (conj A (conj B C)).
Defined.

(** A failing client: one request went out, and its error comes back. *)
Lemma query_frame_witness :
  GraphqlParams.data Scenario.shop_name_query <> DataString "" /\
  GraphqlParams.data Scenario.shop_name_query <> DataObject [] /\
  fst (GraphqlClient.query (Scenario.graphql_client false (JsString "tok"))
         Scenario.shop_name_query Replay.refusing_world)
  = inl (HttpRequestError "Received an error response (400 Bad Request)").
Proof.
  assert (GraphqlParams.data Scenario.shop_name_query <> DataString "")
    as Hs by discriminate.
  assert (GraphqlParams.data Scenario.shop_name_query <> DataObject [])
    as Ho by discriminate.
  refine (conj Hs (conj Ho _)).
  destruct (query_frame (Scenario.graphql_client false (JsString "tok"))
              Scenario.shop_name_query Replay.refusing_world)
    as [_ [_ [_ [_ [_ [_ A]]]]]].
  destruct (A Hs Ho) as [_ B].
  exact (B _ eq_refl).
Defined.

(** The caller's access-token header is the one the request carries. *)
Lemma query_sends_headers_witness :
  GraphqlParams.data Replay.overriding_query <> DataString "" /\
  GraphqlParams.data Replay.overriding_query <> DataObject [] /\
  exists request headers,
    sent (snd (GraphqlClient.query
                 (Scenario.graphql_client false (JsString "tok"))
                 Replay.overriding_query (Scenario.world [])))
    = [request] /\
    HttpRequest.extraHeaders request = Some headers /\
    assoc "X-Shopify-Access-Token" headers
    = Some (JsString "caller_token").
Proof.
  assert (GraphqlParams.data Replay.overriding_query <> DataString "")
    as Hs by discriminate.
  assert (GraphqlParams.data Replay.overriding_query <> DataObject [])
    as Ho by discriminate.
  refine (conj Hs (conj Ho _)).
  destruct (query_sends_headers
              (Scenario.graphql_client false (JsString "tok"))
              Replay.overriding_query (Scenario.world []) Hs Ho)
    as [request [headers [S [E L]]]].
  exists request, headers.
  exact (conj S (conj E (L "X-Shopify-Access-Token"))).
Defined.

End MoreScenarios.

